(** * Gen-Imgs: the image generation service of [main.py]

    A shallow embedding of [LeonardoImageGenerator] and of the Flask view
    [generate_image_endpoint], with the properties of the service stated
    over it.

    - Python values are an inductive type [value]; a JSON number is an
      integer here (fractional numbers are left out).
    - A Python [dict] with string keys is an association list in insertion
      order; [dict_lookup] reads the first binding of a key.
    - The service talks to the provider, the object store, the clock and the
      random source.  Every outbound call is appended to a history
      ([list event]); what the outside answers is a function of the history
      so far, collected in the record [Env].
    - A response of the provider carries its body already decoded; a body
      that is not JSON is left out.
    - Python exceptions are explicit: a computation returns [Ok v] or
      [Raise e] together with the history, which survives the exception.
    - The logger is left out: it has no effect on results or outbound calls. *)

From Stdlib Require Import String Ascii List ZArith NArith Bool Lia DecimalString.
Import ListNotations.

Local Open Scope list_scope.
Local Open Scope string_scope.

(** ** Python values *)

#[local] Set Warnings "-register-all".

Inductive value : Type :=
| VNone
| VBool (b : bool)
| VInt (z : Z)
| VStr (s : string)
| VBytes (b : list Byte.byte)
| VList (l : list value)
| VDict (d : list (string * value)).

Inductive exn : Type :=
| RequestException   (* raised by the session: connection, retries, bad URL *)
| HTTPError          (* raised by raise_for_status; a RequestException *)
| AttributeError
| TypeError
| IndexError
| KeyError
| ValueError
| GoogleCloudError   (* raised by the storage client *)
| HTTPException.     (* raised by request.json: BadRequest, UnsupportedMediaType *)

(** [except requests.RequestException] *)
Definition is_RequestException (e : exn) : bool :=
  match e with
  | RequestException | HTTPError => true
  | _ => false
  end.

(** [except Exception] *)
Definition is_Exception (e : exn) : bool := true.

Inductive result (A : Type) : Type :=
| Ok (a : A)
| Raise (e : exn).
Arguments Ok {A} a.
Arguments Raise {A} e.

(** ** Dictionaries *)

Fixpoint dict_lookup (k : string) (d : list (string * value)) : option value :=
  match d with
  | [] => None
  | (k', v) :: d' => if String.eqb k k' then Some v else dict_lookup k d'
  end.

(** [d[k] = v]: replaces the binding of [k], or adds one at the end. *)
Fixpoint dict_set (k : string) (v : value) (d : list (string * value))
  : list (string * value) :=
  match d with
  | [] => [(k, v)]
  | (k', v') :: d' =>
      if String.eqb k k' then (k', v) :: d' else (k', v') :: dict_set k v d'
  end.

(** ** Built-in operations *)

(** Truth value of an object, as [not x] and [if x] test it. *)
Definition truthy (v : value) : bool :=
  match v with
  | VNone => false
  | VBool b => b
  | VInt z => negb (Z.eqb z 0)
  | VStr s => negb (String.eqb s EmptyString)
  | VBytes b => match b with [] => false | _ => true end
  | VList l => match l with [] => false | _ => true end
  | VDict d => match d with [] => false | _ => true end
  end.

(** [x == s] for a string literal [s]. *)
Definition py_eq_str (v : value) (s : string) : bool :=
  match v with
  | VStr s' => String.eqb s' s
  | _ => false
  end.

(** [obj.get(key, default)]: only a dict has the method. *)
Definition py_get (obj : value) (key : string) (default : value) : result value :=
  match obj with
  | VDict d =>
      match dict_lookup key d with
      | Some v => Ok v
      | None => Ok default
      end
  | _ => Raise AttributeError
  end.

(** [obj[key]] for a string key. *)
Definition py_getitem (obj : value) (key : string) : result value :=
  match obj with
  | VDict d =>
      match dict_lookup key d with
      | Some v => Ok v
      | None => Raise KeyError
      end
  | _ => Raise TypeError
  end.

(** [obj[key] = v] for a string key. *)
Definition py_setitem (obj : value) (key : string) (v : value) : result value :=
  match obj with
  | VDict d => Ok (VDict (dict_set key v d))
  | _ => Raise TypeError
  end.

(** [obj[0]].  The keys of a JSON object are strings, so a dict has no
    key [0]. *)
Definition py_index0 (obj : value) : result value :=
  match obj with
  | VList l =>
      match l with
      | x :: _ => Ok x
      | [] => Raise IndexError
      end
  | VStr s =>
      match s with
      | String c _ => Ok (VStr (String c EmptyString))
      | EmptyString => Raise IndexError
      end
  | VBytes b =>
      match b with
      | x :: _ => Ok (VInt (Z.of_N (Byte.to_N x)))
      | [] => Raise IndexError
      end
  | VDict _ => Raise KeyError
  | _ => Raise TypeError
  end.

Fixpoint substring_of (p s : string) : bool :=
  String.prefix p s ||
  match s with
  | EmptyString => false
  | String _ s' => substring_of p s'
  end.

(** [key in obj] for a string [key]. *)
Definition py_contains (key : string) (obj : value) : result bool :=
  match obj with
  | VDict d =>
      Ok (match dict_lookup key d with Some _ => true | None => false end)
  | VList l => Ok (existsb (fun x => py_eq_str x key) l)
  | VStr s => Ok (substring_of key s)
  | _ => Raise TypeError
  end.

(** [a < b] on the numbers modelled; a bool is an int. *)
Definition py_lt (a b : value) : result bool :=
  let num v :=
    match v with
    | VInt z => Some z
    | VBool b => Some (if b then 1%Z else 0%Z)
    | _ => None
    end in
  match num a, num b with
  | Some x, Some y => Ok (Z.ltb x y)
  | _, _ => Raise TypeError
  end.

(** [min(a, b)]: [b] replaces [a] when [b < a]. *)
Definition py_min (a b : value) : result value :=
  match py_lt b a with
  | Ok true => Ok b
  | Ok false => Ok a
  | Raise e => Raise e
  end.

(** ** Formatting *)

Definition hex_char (d : N) : ascii :=
  nth (N.to_nat d)
      ["0"; "1"; "2"; "3"; "4"; "5"; "6"; "7";
       "8"; "9"; "a"; "b"; "c"; "d"; "e"; "f"]%char "0"%char.

Definition is_hex_char (c : ascii) : bool :=
  existsb (Ascii.eqb c)
      ["0"; "1"; "2"; "3"; "4"; "5"; "6"; "7";
       "8"; "9"; "a"; "b"; "c"; "d"; "e"; "f"]%char.

Fixpoint all_chars (p : ascii -> bool) (s : string) : bool :=
  match s with
  | EmptyString => true
  | String c s' => p c && all_chars p s'
  end.

(** The [k] low hexadecimal digits of [n], most significant first. *)
Fixpoint hex_fixed (k : nat) (n : N) (acc : string) : string :=
  match k with
  | O => acc
  | S k' => hex_fixed k' (N.div n 16) (String (hex_char (N.modulo n 16)) acc)
  end.

(** [uuid.UUID.hex]: 32 hexadecimal digits of the 128-bit integer. *)
Definition uuid_hex (u : N) : string :=
  hex_fixed 32 (N.modulo u (2 ^ 128)) EmptyString.

Fixpoint zeros (k : nat) : string :=
  match k with
  | O => EmptyString
  | S k' => String "0" (zeros k')
  end.

(** Decimal digits of [n], padded with zeros on the left to [k] places. *)
Definition zpad (k : nat) (n : N) : string :=
  let s := NilZero.string_of_uint (N.to_uint n) in
  zeros (k - String.length s) ++ s.

Record datetime : Type := {
  dt_year : N; dt_month : N; dt_day : N;
  dt_hour : N; dt_minute : N; dt_second : N;
  dt_microsecond : N
}.

(** [dt.strftime("%Y%m%d_%H%M%S")] *)
Definition strftime (dt : datetime) : string :=
  zpad 4 (dt_year dt) ++ zpad 2 (dt_month dt) ++ zpad 2 (dt_day dt) ++ "_" ++
  zpad 2 (dt_hour dt) ++ zpad 2 (dt_minute dt) ++ zpad 2 (dt_second dt).

Definition datetime_valid (dt : datetime) : bool :=
  (1000 <=? dt_year dt)%N && (dt_year dt <=? 9999)%N &&
  (1 <=? dt_month dt)%N && (dt_month dt <=? 12)%N &&
  (1 <=? dt_day dt)%N && (dt_day dt <=? 31)%N &&
  (dt_hour dt <=? 23)%N && (dt_minute dt <=? 59)%N && (dt_second dt <=? 59)%N.

(** ** The outside world *)

Inductive event : Type :=
| EPost (url : string) (payload : value)   (* session.post(url, json=payload) *)
| EGet (url : value)                       (* session.get(url) *)
| ESleep (seconds : Z)                     (* time.sleep(seconds) *)
| EUpload (name : string) (data : value) (content_type : string)
                                           (* blob.upload_from_string *)
| EMakePublic (name : string).             (* blob.make_public *)

(** A [requests.Response] whose body has been decoded. *)
Record response : Type := {
  status_code : Z;
  json_body : value;          (* response.json() *)
  content : list Byte.byte    (* response.content *)
}.

(** What the view is called on.  Reading [request.json] gives the decoded
    body ([null] decodes to [None]), or raises when there is no body to
    decode: the body is absent or empty, is not JSON, or is not declared as
    JSON. *)
Inductive request : Type :=
| JsonRequest (data : value)
| UnreadableRequest.

(** [request.json] *)
Definition request_json (req : request) : result value :=
  match req with
  | JsonRequest data => Ok data
  | UnreadableRequest => Raise HTTPException
  end.

(** A client or server error status, on which [raise_for_status] raises. *)
Definition is_error_status (r : response) : bool :=
  (400 <=? status_code r)%Z && (status_code r <? 600)%Z.

(** What the outside answers, given the calls made so far.  The session
    either raises a [RequestException] ([None]; the transport's own retries
    are inside it) or hands back a response.  A storage call works or
    raises. *)
Record Env : Type := {
  http_post : list event -> string -> value -> option response;
  http_get : list event -> value -> option response;
  blob_upload : list event -> string -> value -> string -> bool;
  blob_make_public : list event -> string -> bool;
  blob_public_url : string -> string;
  datetime_now : list event -> datetime;
  uuid4 : list event -> N;
  GCP_FOLDER_NAME : option string    (* os.getenv('GCP_FOLDER_NAME') *)
}.

(** ** Computations with a history and exceptions *)

Definition M (A : Type) : Type := list event -> result A * list event.

Definition ret {A} (a : A) : M A := fun h => (Ok a, h).

Definition raise {A} (e : exn) : M A := fun h => (Raise e, h).

Definition bind {A B} (m : M A) (f : A -> M B) : M B :=
  fun h =>
    match m h with
    | (Ok a, h') => f a h'
    | (Raise e, h') => (Raise e, h')
    end.

(** A pure operation that may raise. *)
Definition lift {A} (r : result A) : M A := fun h => (r, h).

(** [try: body except C: handler], [catches] deciding the class [C]. *)
Definition try_except {A} (body : M A) (catches : exn -> bool)
           (handler : exn -> M A) : M A :=
  fun h =>
    match body h with
    | (Ok a, h') => (Ok a, h')
    | (Raise e, h') => if catches e then handler e h' else (Raise e, h')
    end.

Notation "x <- m ;; k" := (bind m (fun x => k))
  (at level 61, m at next level, right associativity).
Notation "m ;;; k" := (bind m (fun _ => k))
  (at level 61, right associativity).

(** ** Configuration constants *)

Definition MAX_GENERATION_ATTEMPTS : nat := 10.
Definition GENERATION_WAIT_TIME : Z := 10.
Definition MODEL_ID : string := "458ecfff-f76c-402c-8b85-f09f6fb198de".

Definition GENERATIONS_URL : string :=
  "https://cloud.leonardo.ai/api/rest/v1/generations".

Definition PROMPT_SUFFIX : string :=
  "ultra-photorealistic, cinematic lighting, " ++
  "high detail, natural textures, " ++
  "no distortions, no artifacts, no woman, no person, no people, no men, no man".

Definition NEGATIVE_PROMPT : string :=
  "blurry, distorted, unnatural anatomy, " ++
  "low resolution, artifacts, unrealistic, " ++
  "low quality, text, watermark, distorted ".

(** [jsonify({'error': msg}), code] *)
Definition error_reply (msg : string) (code : Z) : value * Z :=
  (VDict [("error", VStr msg)], code).

(** ** The service *)

Section Service.

(** [repr] of a list, dict or bytes object, which an f-string prints for
    such a value; a built-in of the language, taken as given. *)
Variable py_repr : value -> string.

Variable env : Env.

(** [f"{v}"] *)
Definition py_str (v : value) : string :=
  match v with
  | VNone => "None"
  | VBool true => "True"
  | VBool false => "False"
  | VInt z => NilZero.string_of_int (Z.to_int z)
  | VStr s => s
  | _ => py_repr v
  end.

(** *** Outbound calls *)

Definition session_post (url : string) (payload : value) : M response :=
  fun h =>
    match http_post env h url payload with
    | Some r => (Ok r, (h ++ [EPost url payload])%list)
    | None => (Raise RequestException, (h ++ [EPost url payload])%list)
    end.

Definition session_get (url : value) : M response :=
  fun h =>
    match http_get env h url with
    | Some r => (Ok r, (h ++ [EGet url])%list)
    | None => (Raise RequestException, (h ++ [EGet url])%list)
    end.

(** [response.raise_for_status()] *)
Definition raise_for_status (r : response) : M unit :=
  if is_error_status r then raise HTTPError else ret tt.

Definition sleep (seconds : Z) : M unit :=
  fun h => (Ok tt, (h ++ [ESleep seconds])%list).

Definition now : M datetime := fun h => (Ok (datetime_now env h), h).

Definition uuid4_hex : M string := fun h => (Ok (uuid_hex (uuid4 env h)), h).

Definition upload_from_string (name : string) (data : value)
           (content_type : string) : M unit :=
  fun h =>
    if blob_upload env h name data content_type
    then (Ok tt, (h ++ [EUpload name data content_type])%list)
    else (Raise GoogleCloudError, (h ++ [EUpload name data content_type])%list).

Definition make_public (name : string) : M unit :=
  fun h =>
    if blob_make_public env h name
    then (Ok tt, (h ++ [EMakePublic name])%list)
    else (Raise GoogleCloudError, (h ++ [EMakePublic name])%list).

(** *** LeonardoImageGenerator *)

Definition status_url (generation_id : value) : string :=
  "https://cloud.leonardo.ai/api/rest/v1/generations/" ++ py_str generation_id.

(** One turn of the loop of [_poll_generation_status]: [Some v] when the
    body executes [return v], [None] when the loop goes on. *)
Definition poll_attempt (generation_id : value) : M (option value) :=
  try_except
    (sleep GENERATION_WAIT_TIME ;;;
     response <- session_get (VStr (status_url generation_id)) ;;
     raise_for_status response ;;;
     result_data <- lift (py_get (json_body response) "generations_by_pk" (VDict [])) ;;
     status <- lift (py_get result_data "status" VNone) ;;
     if py_eq_str status "COMPLETE" then
       images <- lift (py_get result_data "generated_images" (VList [VDict []])) ;;
       image_data <- lift (py_index0 images) ;;
       nsfw <- lift (py_get image_data "nsfw" (VBool false)) ;;
       if truthy nsfw then ret (Some VNone)
       else
         image_url <- lift (py_get image_data "url" VNone) ;;
         if negb (truthy image_url) then ret (Some VNone)
         else
           image_response <- session_get image_url ;;
           raise_for_status image_response ;;;
           result_data' <- lift (py_setitem result_data "image_bytes"
                                            (VBytes (content image_response))) ;;
           ret (Some result_data')
     else ret None)
    is_RequestException
    (fun _ => ret None).

(** [for attempt in range(n)], then [return None]. *)
Fixpoint poll_loop (generation_id : value) (n : nat) : M value :=
  match n with
  | O => ret VNone
  | S n' =>
      r <- poll_attempt generation_id ;;
      match r with
      | Some v => ret v
      | None => poll_loop generation_id n'
      end
  end.

Definition _poll_generation_status (generation_id : value) : M value :=
  poll_loop generation_id MAX_GENERATION_ATTEMPTS.

Definition submission_payload (prompt width height : value) : value :=
  VDict [("prompt", VStr (py_str prompt ++ ", " ++ PROMPT_SUFFIX));
         ("negative_prompt", VStr NEGATIVE_PROMPT);
         ("height", height);
         ("width", width);
         ("num_images", VInt 1);
         ("modelId", VStr MODEL_ID)].

Definition generate_image (prompt width height : value) : M value :=
  try_except
    (let payload := submission_payload prompt width height in
     response <- session_post GENERATIONS_URL payload ;;
     raise_for_status response ;;;
     job <- lift (py_get (json_body response) "sdGenerationJob" (VDict [])) ;;
     generation_id <- lift (py_get job "generationId" VNone) ;;
     if negb (truthy generation_id) then ret VNone
     else _poll_generation_status generation_id)
    is_RequestException
    (fun _ => ret VNone).

Definition folder_name : value :=
  match GCP_FOLDER_NAME env with
  | Some s => VStr s
  | None => VNone
  end.

(** The local path is computed and not used; nothing is written locally. *)
Definition upload_to_gcs (image_data : value) : M value :=
  try_except
    (image_bytes <- lift (py_get image_data "image_bytes" VNone) ;;
     if negb (truthy image_bytes) then raise ValueError
     else
       dt <- now ;;
       hex <- uuid4_hex ;;
       let timestamp := strftime dt in
       let image_id := timestamp ++ "_" ++ substring 0 8 hex ++ ".jpg" in
       let name := py_str folder_name ++ image_id in
       upload_from_string name image_bytes "image/jpeg" ;;;
       make_public name ;;;
       ret (VStr (blob_public_url env name)))
    is_Exception
    (fun _ => ret VNone).

(** *** The Flask view *)

(** The statements of the [try] block that follow [data = request.json]. *)
Definition view_body (data : value) : M (value * Z) :=
  if negb (truthy data) then ret (error_reply "A prompt is required" 400)
  else
    has_prompt <- lift (py_contains "prompt" data) ;;
    if negb has_prompt then ret (error_reply "A prompt is required" 400)
    else
      prompt <- lift (py_getitem data "prompt") ;;
      w <- lift (py_get data "width" (VInt 896)) ;;
      width <- lift (py_min w (VInt 900)) ;;
      h <- lift (py_get data "height" (VInt 1192)) ;;
      height <- lift (py_min h (VInt 1536)) ;;
      generated_image <- generate_image prompt width height ;;
      if negb (truthy generated_image)
      then ret (error_reply "Image generation failed" 500)
      else
        image_url <- upload_to_gcs generated_image ;;
        if negb (truthy image_url)
        then ret (error_reply "Image upload failed" 500)
        else ret (VDict [("success", VBool true);
                         ("prompt", prompt);
                         ("image_url", image_url)], 200%Z).

(** The view on a request whose [request.json] is [data]. *)
Definition generate_image_endpoint (data : value) : M (value * Z) :=
  try_except
    (view_body data)
    is_Exception
    (fun _ => ret (error_reply "Unexpected server error" 500)).

(** The view on any request: [request.json] is read inside the [try]. *)
Definition endpoint_on_request (req : request) : M (value * Z) :=
  try_except
    (data <- lift (request_json req) ;;
     view_body data)
    is_Exception
    (fun _ => ret (error_reply "Unexpected server error" 500)).

End Service.

(** ** Scenarios

    Concrete provider and store behaviours, used to run the service. *)

Definition no_repr (v : value) : string := "<object>".

Definition ok_response (body : value) : response :=
  {| status_code := 200; json_body := body; content := [] |}.

Definition job_reply (generation_id : value) : response :=
  ok_response (VDict [("sdGenerationJob",
                       VDict [("generationId", generation_id)])]).

Definition status_reply (fields : list (string * value)) : response :=
  ok_response (VDict [("generations_by_pk", VDict fields)]).

Definition image_reply (bytes : list Byte.byte) : response :=
  {| status_code := 200; json_body := VNone; content := bytes |}.

Definition sample_datetime : datetime :=
  {| dt_year := 2024; dt_month := 3; dt_day := 7;
     dt_hour := 9; dt_minute := 5; dt_second := 42;
     dt_microsecond := 123456 |}.

Definition sample_bytes : list Byte.byte := [Byte.xff; Byte.xd8; Byte.xff].

Definition count_gets (h : list event) : nat :=
  List.length (filter (fun e => match e with EGet _ => true | _ => false end) h).

Definition count_posts (h : list event) : nat :=
  List.length (filter (fun e => match e with EPost _ _ => true | _ => false end) h).

(** A provider and a store given by their answers; the store's public URL
    is the object name under a fixed base. *)
Definition make_env (post : list event -> option response)
           (get : list event -> value -> option response)
           (store_ok : bool) : Env :=
  {| http_post := fun h _ _ => post h;
     http_get := get;
     blob_upload := fun _ _ _ _ => store_ok;
     blob_make_public := fun _ _ => store_ok;
     blob_public_url := fun name => "https://storage.googleapis.com/bucket/" ++ name;
     datetime_now := fun _ => sample_datetime;
     uuid4 := fun _ => 0x0123456789abcdef0123456789abcdef%N;
     GCP_FOLDER_NAME := Some "images/" |}.

(** The job stays pending for ever. *)
Definition env_pending : Env :=
  make_env (fun _ => Some (job_reply (VStr "job-1")))
           (fun _ _ => Some (status_reply [("status", VStr "PENDING")]))
           true.

(** Two pending answers, then a completed image flagged unsafe, with a
    second, safe descriptor behind it. *)
Definition env_unsafe : Env :=
  make_env (fun _ => Some (job_reply (VStr "job-1")))
           (fun h _ =>
              if Nat.ltb (count_gets h) 2
              then Some (status_reply [("status", VStr "PENDING")])
              else Some (status_reply
                           [("status", VStr "COMPLETE");
                            ("generated_images",
                             VList [VDict [("nsfw", VBool true);
                                           ("url", VStr "https://cdn.example/a.jpg")];
                                    VDict [("nsfw", VBool false);
                                           ("url", VStr "https://cdn.example/b.jpg")]])]))
           true.

Definition complete_get (h : list event) (url : value) : option response :=
  if py_eq_str url "https://cdn.example/a.jpg"
  then Some (image_reply sample_bytes)
  else Some (status_reply
               [("status", VStr "COMPLETE");
                ("generated_images",
                 VList [VDict [("nsfw", VBool false);
                               ("url", VStr "https://cdn.example/a.jpg")]])]).

(** The first status query finds a safe completed image; the store works. *)
Definition env_success : Env :=
  make_env (fun _ => Some (job_reply (VStr "job-1"))) complete_get true.

(** As [env_success], with a store that refuses the upload. *)
Definition env_store_down : Env :=
  make_env (fun _ => Some (job_reply (VStr "job-1"))) complete_get false.

(** The job is reported complete with an empty list of images. *)
Definition env_empty_images : Env :=
  make_env (fun _ => Some (job_reply (VStr "job-1")))
           (fun _ _ => Some (status_reply [("status", VStr "COMPLETE");
                                           ("generated_images", VList [])]))
           true.

(** The submission is answered without a job identifier. *)
Definition env_no_job : Env :=
  make_env (fun _ => Some (ok_response (VDict [("sdGenerationJob", VDict [])])))
           (fun _ _ => None) true.

(** The provider cannot be reached. *)
Definition env_unreachable : Env :=
  make_env (fun _ => None) (fun _ _ => None) true.

(** A completed, safe image whose descriptor has no URL. *)
Definition env_no_url : Env :=
  make_env (fun _ => Some (job_reply (VStr "job-1")))
           (fun _ _ => Some (status_reply
                               [("status", VStr "COMPLETE");
                                ("generated_images",
                                 VList [VDict [("nsfw", VBool false)]])]))
           true.

(** The status answers of [env_success]; the image host answers [image]. *)
Definition fetch_get (image : option response) (h : list event) (url : value)
  : option response :=
  if py_eq_str url "https://cdn.example/a.jpg"
  then image
  else complete_get h url.

(** As [env_success], with an image host that cannot be reached. *)
Definition env_fetch_down : Env :=
  make_env (fun _ => Some (job_reply (VStr "job-1"))) (fetch_get None) true.

(** As [env_success], with an image host that sends an empty body. *)
Definition env_empty_image : Env :=
  make_env (fun _ => Some (job_reply (VStr "job-1")))
           (fetch_get (Some (image_reply []))) true.

(** The status document and the first descriptor of [env_success]. *)
Definition sample_descriptor : list (string * value) :=
  [("nsfw", VBool false); ("url", VStr "https://cdn.example/a.jpg")].

Definition sample_fields : list (string * value) :=
  [("status", VStr "COMPLETE");
   ("generated_images", VList [VDict sample_descriptor])].

(** Every status query is answered with a null [generations_by_pk]. *)
Definition env_null_status : Env :=
  make_env (fun _ => Some (job_reply (VStr "job-1")))
           (fun _ _ => Some (ok_response (VDict [("generations_by_pk", VNone)])))
           true.

(** The submission is answered with a null [sdGenerationJob]. *)
Definition env_null_job : Env :=
  make_env (fun _ => Some (ok_response (VDict [("sdGenerationJob", VNone)])))
           (fun _ _ => None) true.

Definition sample_request : value :=
  VDict [("prompt", VStr "a red barn"); ("width", VInt 5000)].


(** What the view answers, and the calls it makes, on [sample_request]
    with [env_success]. *)
Definition success_reply : value * Z :=
  (VDict [("success", VBool true);
          ("prompt", VStr "a red barn");
          ("image_url",
           VStr "https://storage.googleapis.com/bucket/images/20240307_090542_01234567.jpg")],
   200%Z).

Definition success_history : list event :=
  [EPost GENERATIONS_URL
         (submission_payload no_repr (VStr "a red barn") (VInt 900) (VInt 1192));
   ESleep 10;
   EGet (VStr "https://cloud.leonardo.ai/api/rest/v1/generations/job-1");
   EGet (VStr "https://cdn.example/a.jpg");
   EUpload "images/20240307_090542_01234567.jpg" (VBytes sample_bytes) "image/jpeg";
   EMakePublic "images/20240307_090542_01234567.jpg"].

(** ** Reading the provider's answers *)

(** The status document of the answer to a status query: the object under
    [generations_by_pk] of a successful answer, empty when the key is
    absent. *)
Definition status_document (r : option response) : option (list (string * value)) :=
  match r with
  | Some resp =>
      if is_error_status resp then None
      else match json_body resp with
           | VDict body =>
               match dict_lookup "generations_by_pk" body with
               | Some (VDict fields) => Some fields
               | Some _ => None
               | None => Some []
               end
           | _ => None
           end
  | None => None
  end.

(** The query does not report COMPLETE: the transport failed, the provider
    answered with an error status, or the status document carries another
    status or none. *)
Definition status_pending (r : option response) : bool :=
  match r with
  | None => true
  | Some resp =>
      is_error_status resp ||
      match status_document r with
      | Some fields =>
          match dict_lookup "status" fields with
          | Some s => negb (py_eq_str s "COMPLETE")
          | None => true
          end
      | None => false
      end
  end.

(** The query reports COMPLETE with [images] under [generated_images]. *)
Definition status_complete (r : option response) (images : value) : Prop :=
  exists fields,
    status_document r = Some fields /\
    dict_lookup "status" fields = Some (VStr "COMPLETE") /\
    dict_lookup "generated_images" fields = Some images.

(** The job document of the answer to a submission: the object under
    [sdGenerationJob], empty when the key is absent. *)
Definition job_document (resp : response) : option (list (string * value)) :=
  match json_body resp with
  | VDict body =>
      match dict_lookup "sdGenerationJob" body with
      | Some (VDict job) => Some job
      | Some _ => None
      | None => Some []
      end
  | _ => None
  end.

(** The submission is answered with the job identifier [generation_id]. *)
Definition submission_yields (r : option response) (generation_id : value) : Prop :=
  exists resp job,
    r = Some resp /\ is_error_status resp = false /\
    job_document resp = Some job /\
    dict_lookup "generationId" job = Some generation_id /\
    truthy generation_id = true.

(** The submission is answered, without a job identifier. *)
Definition submission_lacks_id (r : option response) : Prop :=
  exists resp job,
    r = Some resp /\ is_error_status resp = false /\
    job_document resp = Some job /\
    match dict_lookup "generationId" job with
    | Some g => truthy g = false
    | None => True
    end.

(** The transport of the submission fails in the end: the session raises,
    or the answer has an error status. *)
Definition submission_fails (r : option response) : Prop :=
  match r with
  | None => True
  | Some resp => is_error_status resp = true
  end.

(** The width or height a request asks for: the default when the key is
    absent, the integer given otherwise. *)
Definition requested (key : string) (default : Z) (d : list (string * value))
  : option Z :=
  match dict_lookup key d with
  | None => Some default
  | Some (VInt z) => Some z
  | Some _ => None
  end.

(** The calls of [k] turns of the polling loop on [url]. *)
Fixpoint polls (url : string) (k : nat) : list event :=
  match k with
  | O => []
  | S k' => ESleep GENERATION_WAIT_TIME :: EGet (VStr url) :: polls url k'
  end.

(** ** Fields of a generation result *)

Definition result_has_bytes (v : value) : bool :=
  match v with
  | VDict d =>
      match dict_lookup "image_bytes" d with
      | Some (VBytes _) => true
      | _ => false
      end
  | _ => false
  end.

Definition result_is_complete (v : value) : bool :=
  match v with
  | VDict d =>
      match dict_lookup "status" d with
      | Some s => py_eq_str s "COMPLETE"
      | None => false
      end
  | _ => false
  end.

(** The NSFW flag of the first image of a result; [None] when the result
    has no first image to read it from. *)
Definition result_nsfw (v : value) : option bool :=
  match py_get v "generated_images" (VList [VDict []]) with
  | Ok images =>
      match py_index0 images with
      | Ok image_data =>
          match py_get image_data "nsfw" (VBool false) with
          | Ok flag => Some (truthy flag)
          | Raise _ => None
          end
      | Raise _ => None
      end
  | Raise _ => None
  end.

(** ** Calls and shapes of answers *)

Definition is_sleep (e : event) : bool :=
  match e with ESleep _ => true | _ => false end.

Definition is_get (e : event) : bool :=
  match e with EGet _ => true | _ => false end.

Definition is_post (e : event) : bool :=
  match e with EPost _ _ => true | _ => false end.

Definition is_store_call (e : event) : bool :=
  match e with EUpload _ _ _ | EMakePublic _ => true | _ => false end.

(** The values [min] compares with an integer: integers and booleans. *)
Definition numeric (v : value) : bool :=
  match v with VInt _ | VBool _ => true | _ => false end.

(** The first image descriptor of a status document: the first element of
    [generated_images], an empty descriptor when the key is absent. *)
Definition first_descriptor (fields : list (string * value))
  : option (list (string * value)) :=
  match dict_lookup "generated_images" fields with
  | None => Some []
  | Some (VList (VDict descriptor :: _)) => Some descriptor
  | Some _ => None
  end.

(** [image_data.get('nsfw', False)], as a truth value. *)
Definition descriptor_unsafe (descriptor : list (string * value)) : bool :=
  match dict_lookup "nsfw" descriptor with
  | Some flag => truthy flag
  | None => false
  end.

(** [image_data.get('url')] *)
Definition descriptor_url (descriptor : list (string * value)) : value :=
  match dict_lookup "url" descriptor with
  | Some u => u
  | None => VNone
  end.

Definition count (q : event -> bool) (t : list event) : nat :=
  List.length (filter q t).

(** The seconds spent in [time.sleep] over the calls [t]. *)
Fixpoint total_sleep (t : list event) : Z :=
  match t with
  | [] => 0
  | ESleep s :: t' => s + total_sleep t'
  | _ :: t' => total_sleep t'
  end.

(** Every sleep among the calls [t] lasts [GENERATION_WAIT_TIME]. *)
Definition fixed_sleeps (t : list event) : bool :=
  forallb (fun e => match e with
                    | ESleep s => Z.eqb s GENERATION_WAIT_TIME
                    | _ => true
                    end) t.

(** The calls of one turn of the polling loop: the sleep, the status query
    and at most one fetch of an image. *)
Definition turn_calls (url : string) (t : list event) : Prop :=
  t = [ESleep 10; EGet (VStr url)] \/
  exists image_url, t = [ESleep 10; EGet (VStr url); EGet image_url].

(** The calls of [upload_to_gcs] for the object [name]: none, the upload
    alone, or the upload and then the publication. *)
Definition store_calls (name : string) (image_bytes : value) (t : list event)
  : Prop :=
  t = [] \/
  t = [EUpload name image_bytes "image/jpeg"] \/
  t = [EUpload name image_bytes "image/jpeg"; EMakePublic name].

(** ** Properties *)

Section Properties.

Variable py_repr : value -> string.
Variable env : Env.

(** *** Auxiliary definitions *)

(** A computation only adds calls at the end of the history. *)
Definition extends {A} (m : M A) : Prop :=
  forall h r h', m h = (r, h') -> exists t, h' = (h ++ t)%list.

(** What the view does after validation, given the prompt and the clamped
    dimensions. *)
Definition serve (prompt width height : value) : M (value * Z) :=
  try_except
    (generated_image <- generate_image py_repr env prompt width height ;;
     if negb (truthy generated_image)
     then ret (error_reply "Image generation failed" 500)
     else
       image_url <- upload_to_gcs py_repr env generated_image ;;
       if negb (truthy image_url)
       then ret (error_reply "Image upload failed" 500)
       else ret (VDict [("success", VBool true);
                        ("prompt", prompt);
                        ("image_url", image_url)], 200%Z))
    is_Exception
    (fun _ => ret (error_reply "Unexpected server error" 500)).

(** The answer to the status query of the turn that starts at history [h]. *)
Definition status_answer (generation_id : value) (h : list event) : option response :=
  http_get env (h ++ [ESleep GENERATION_WAIT_TIME])%list
           (VStr (status_url py_repr generation_id)).

(** The submission call of a request for prompt [p], width [w] and
    height [h]. *)
Definition submission (p : value) (w h : Z) : event :=
  EPost GENERATIONS_URL
        (submission_payload py_repr p (VInt (Z.min w 900)) (VInt (Z.min h 1536))).

(** What the provider answers to that call at history [h0]. *)
Definition submission_answer (p : value) (w h : Z) (h0 : list event)
  : option response :=
  http_post env h0 GENERATIONS_URL
            (submission_payload py_repr p (VInt (Z.min w 900)) (VInt (Z.min h 1536))).

(** A result with the fetched bytes attached to a completed, safe status
    document. *)
Definition generation_result (v : value) : Prop :=
  exists fields bytes,
    v = VDict (dict_set "image_bytes" (VBytes bytes) fields) /\
    result_is_complete (VDict fields) = true /\
    result_nsfw (VDict fields) = Some false.

(** The name under which [upload_to_gcs] stores the object at history [h]:
    the folder prefix, then the file name. *)
Definition object_name (h : list event) : string :=
  py_str py_repr (folder_name env) ++
  strftime (datetime_now env h) ++ "_" ++
  substring 0 8 (uuid_hex (uuid4 env h)) ++ ".jpg".

(** Every step of the upload works: the bytes are there, the store takes
    them and makes the object public. *)
Definition upload_succeeds (image_data : value) (h : list event) : bool :=
  match py_get image_data "image_bytes" VNone with
  | Ok b =>
      truthy b &&
      blob_upload env h (object_name h) b "image/jpeg" &&
      blob_make_public env (h ++ [EUpload (object_name h) b "image/jpeg"])%list
                       (object_name h)
  | Raise _ => false
  end.

(** Every number below [bound] is printed on exactly [k] places. *)
Definition zpad_fits (k : nat) (bound : N) : bool :=
  forallb (fun i => Nat.eqb (String.length (zpad k (N.of_nat i))) k)
          (seq 0 (N.to_nat bound)).

(** What [n] turns may add to the history. *)
Definition within_budget (n : nat) (t : list event) : Prop :=
  (count is_sleep t <= n)%nat /\
  fixed_sleeps t = true /\
  (count is_sleep t <= count is_get t <= 2 * count is_sleep t)%nat /\
  count is_post t = 0%nat /\
  count is_store_call t = 0%nat.

(** What the view answers once the request is read, with the calls made
    after the submission and its polling. *)
Definition served (p : value) (reply : value * Z) (ts : list event) : Prop :=
  (reply = error_reply "Unexpected server error" 500 /\ ts = []) \/
  (reply = error_reply "Image generation failed" 500 /\ ts = []) \/
  (reply = error_reply "Image upload failed" 500 /\
   exists name b, store_calls name b ts) \/
  (exists name b,
      reply = (VDict [("success", VBool true);
                      ("prompt", p);
                      ("image_url", VStr (blob_public_url env name))], 200%Z) /\
      ts = [EUpload name b "image/jpeg"; EMakePublic name]).

(** The status query of the turn that starts at [h] reports COMPLETE, with
    [descriptor] as the first image. *)
Definition completed (generation_id : value) (h : list event)
           (fields descriptor : list (string * value)) : Prop :=
  status_document (status_answer generation_id h) = Some fields /\
  dict_lookup "status" fields = Some (VStr "COMPLETE") /\
  first_descriptor fields = Some descriptor.

(** The first [k] turns from history [h] find the job unfinished. *)
Definition pending_turns (generation_id : value) (h : list event) (k : nat) : Prop :=
  forall i, (i < k)%nat ->
    status_pending
      (status_answer generation_id
         (h ++ polls (status_url py_repr generation_id) i)%list) = true.

(** The fetch of an image fails: the session raises, or the answer has an
    error status. *)
Definition fetch_fails (r : option response) : Prop :=
  match r with
  | None => True
  | Some resp => is_error_status resp = true
  end.

(** The history once the image is fetched: the submission, [k + 1] turns
    and the fetch. *)
Definition fetched_history (p generation_id : value) (w h : Z) (h0 : list event)
           (k : nat) (image_url : value) : list event :=
  (h0 ++ submission p w h ::
      polls (status_url py_repr generation_id) (S k) ++ [EGet image_url])%list.

(** A request goes through to the fetch of the image: it has a prompt and
    integer (or omitted) dimensions, the submission yields a job identifier,
    [k] turns find the job unfinished, the next one finds it complete with a
    first image that is not flagged, and the fetch of its URL works. *)
Definition reaches_fetch (d : list (string * value)) (p generation_id : value)
           (w h : Z) (h0 : list event) (k : nat)
           (fields descriptor : list (string * value))
           (image_response : response) : Prop :=
  dict_lookup "prompt" d = Some p /\
  requested "width" 896 d = Some w /\
  requested "height" 1192 d = Some h /\
  submission_yields (submission_answer p w h h0) generation_id /\
  (k < 10)%nat /\
  pending_turns generation_id (h0 ++ [submission p w h])%list k /\
  completed generation_id
            ((h0 ++ [submission p w h]) ++
               polls (status_url py_repr generation_id) k)%list
            fields descriptor /\
  descriptor_unsafe descriptor = false /\
  truthy (descriptor_url descriptor) = true /\
  http_get env ((h0 ++ [submission p w h]) ++
                  polls (status_url py_repr generation_id) (S k))%list
           (descriptor_url descriptor) = Some image_response /\
  is_error_status image_response = false.

(** *** Exceptions and handlers *)

Lemma try_except_escapes {A} (body : M A) (catches : exn -> bool)
      (handler : exn -> M A) (h h' : list event) (e : exn) :
  (forall e0 h0, exists a h1, handler e0 h0 = (Ok a, h1)) ->
  try_except body catches handler h = (Raise e, h') ->
  catches e = false.
Proof.
  intros Hhandler. unfold try_except.
  destruct (body h) as [[a | e0] h0].
  - discriminate.
  - destruct (catches e0) eqn:Hc.
    + destruct (Hhandler e0 h0) as (a & h1 & Heq). rewrite Heq. discriminate.
    + intros Heq. injection Heq as <- <-. exact Hc.
Qed.

Lemma try_except_all_total {A} (body : M A) (handler : exn -> M A)
      (h : list event) :
  (forall e0 h0, exists a h1, handler e0 h0 = (Ok a, h1)) ->
  exists a h', try_except body is_Exception handler h = (Ok a, h').
Proof.
  intros Hhandler. unfold try_except.
  destruct (body h) as [[a | e0] h0].
  - eauto.
  - simpl. apply Hhandler.
Qed.

(** *** Calls are only ever added to the history *)

Lemma extends_ret {A} (a : A) : extends (ret a).
Proof. intros h r h' H. injection H as _ <-. exists []. now rewrite app_nil_r. Qed.

Lemma extends_raise {A} (e : exn) : extends (@raise A e).
Proof. intros h r h' H. injection H as _ <-. exists []. now rewrite app_nil_r. Qed.

Lemma extends_lift {A} (x : result A) : extends (lift x).
Proof. intros h r h' H. injection H as _ <-. exists []. now rewrite app_nil_r. Qed.

Lemma extends_bind {A B} (m : M A) (f : A -> M B) :
  extends m -> (forall a, extends (f a)) -> extends (bind m f).
Proof.
  intros Hm Hf h r h'. unfold bind.
  destruct (m h) as [[a | e] h1] eqn:E; destruct (Hm _ _ _ E) as [t1 ->].
  - intros H. destruct (Hf a _ _ _ H) as [t2 ->].
    exists (t1 ++ t2)%list. now rewrite app_assoc.
  - intros H. injection H as _ <-. now exists t1.
Qed.

Lemma extends_try {A} (body : M A) (catches : exn -> bool) (handler : exn -> M A) :
  extends body -> (forall e, extends (handler e)) ->
  extends (try_except body catches handler).
Proof.
  intros Hb Hh h r h'. unfold try_except.
  destruct (body h) as [[a | e] h1] eqn:E; destruct (Hb _ _ _ E) as [t1 ->].
  - intros H. injection H as _ <-. now exists t1.
  - destruct (catches e).
    + intros H. destruct (Hh e _ _ _ H) as [t2 ->].
      exists (t1 ++ t2)%list. now rewrite app_assoc.
    + intros H. injection H as _ <-. now exists t1.
Qed.

Lemma extends_session_post (url : string) (payload : value) :
  extends (session_post env url payload).
Proof.
  intros h r h'. unfold session_post.
  destruct (http_post env h url payload); intros H; injection H as _ <-; eauto.
Qed.

Lemma extends_session_get (url : value) : extends (session_get env url).
Proof.
  intros h r h'. unfold session_get.
  destruct (http_get env h url); intros H; injection H as _ <-; eauto.
Qed.

Lemma extends_raise_for_status (r : response) : extends (raise_for_status r).
Proof.
  unfold raise_for_status.
  destruct (is_error_status r); [apply extends_raise | apply extends_ret].
Qed.

Lemma extends_sleep (s : Z) : extends (sleep s).
Proof. intros h r h' H. injection H as _ <-. eauto. Qed.

Lemma extends_now : extends (now env).
Proof. intros h r h' H. injection H as _ <-. exists []. now rewrite app_nil_r. Qed.

Lemma extends_uuid4_hex : extends (uuid4_hex env).
Proof. intros h r h' H. injection H as _ <-. exists []. now rewrite app_nil_r. Qed.

Lemma extends_upload_from_string (name : string) (data : value) (ct : string) :
  extends (upload_from_string env name data ct).
Proof.
  intros h r h'. unfold upload_from_string.
  destruct (blob_upload env h name data ct); intros H; injection H as _ <-; eauto.
Qed.

Lemma extends_make_public (name : string) : extends (make_public env name).
Proof.
  intros h r h'. unfold make_public.
  destruct (blob_make_public env h name); intros H; injection H as _ <-; eauto.
Qed.

Ltac extends_step :=
  first
    [ apply extends_ret | apply extends_raise | apply extends_lift
    | apply extends_session_post | apply extends_session_get
    | apply extends_raise_for_status | apply extends_sleep
    | apply extends_now | apply extends_uuid4_hex
    | apply extends_upload_from_string | apply extends_make_public
    | apply extends_bind; [ | intros ]
    | apply extends_try; [ | intros ]
    | match goal with
      | |- extends (if ?b then _ else _) => destruct b
      | |- extends (match ?x with Some _ => _ | None => _ end) => destruct x
      end ].

Lemma extends_poll_attempt (generation_id : value) :
  extends (poll_attempt py_repr env generation_id).
Proof. unfold poll_attempt. repeat extends_step. Qed.

Lemma extends_poll_loop (generation_id : value) (n : nat) :
  extends (poll_loop py_repr env generation_id n).
Proof.
  induction n as [| n IH]; cbn [poll_loop].
  - apply extends_ret.
  - apply extends_bind; [apply extends_poll_attempt |].
    intros [v |]; [apply extends_ret | exact IH].
Qed.

Lemma extends_generate_image (p w h : value) :
  extends (generate_image py_repr env p w h).
Proof.
  unfold generate_image, _poll_generation_status.
  repeat first [apply extends_poll_loop | extends_step].
Qed.

Lemma extends_upload_to_gcs (image_data : value) :
  extends (upload_to_gcs py_repr env image_data).
Proof. unfold upload_to_gcs. repeat extends_step. Qed.

(** *** Arithmetic of the clamp *)

Lemma py_min_int (z cap : Z) :
  py_min (VInt z) (VInt cap) = Ok (VInt (Z.min z cap)).
Proof.
  unfold py_min, py_lt.
  destruct (Z.ltb_spec cap z).
  - rewrite Z.min_r by lia. reflexivity.
  - rewrite Z.min_l by lia. reflexivity.
Qed.

Lemma requested_get (key : string) (default z : Z) (d : list (string * value)) :
  requested key default d = Some z ->
  py_get (VDict d) key (VInt default) = Ok (VInt z).
Proof.
  unfold requested, py_get.
  destruct (dict_lookup key d) as [[] |]; intros H; inversion H; reflexivity.
Qed.

(** *** The view, once the request is read *)

Lemma endpoint_valid_request (d : list (string * value)) (p : value) (w h : Z)
      (h0 : list event) :
  dict_lookup "prompt" d = Some p ->
  requested "width" 896 d = Some w ->
  requested "height" 1192 d = Some h ->
  generate_image_endpoint py_repr env (VDict d) h0 =
  serve p (VInt (Z.min w 900)) (VInt (Z.min h 1536)) h0.
Proof.
  intros Hp Hw Hh.
  assert (Ht : truthy (VDict d) = true) by (destruct d; [discriminate | reflexivity]).
  unfold generate_image_endpoint, view_body, serve, try_except.
  rewrite Ht. cbn [negb].
  unfold bind at 1. unfold lift at 1. unfold py_contains. rewrite Hp. cbn [negb].
  unfold bind at 1. unfold lift at 1. unfold py_getitem. rewrite Hp.
  unfold bind at 1. unfold lift at 1. rewrite (requested_get _ _ _ _ Hw).
  unfold bind at 1. unfold lift at 1. rewrite py_min_int.
  unfold bind at 1. unfold lift at 1. rewrite (requested_get _ _ _ _ Hh).
  unfold bind at 1. unfold lift at 1. rewrite py_min_int.
  reflexivity.
Qed.

(** The first call of [generate_image] is the submission. *)
Lemma generate_image_submits (p w h : value) (h0 : list event) :
  exists r rest,
    generate_image py_repr env p w h h0 =
    (r, (h0 ++ EPost GENERATIONS_URL (submission_payload py_repr p w h) :: rest)%list).
Proof.
  destruct (generate_image py_repr env p w h h0) as [r h'] eqn:E.
  exists r. revert E.
  unfold generate_image, try_except. cbv zeta.
  unfold bind at 1. unfold session_post at 1.
  destruct (http_post env h0 _ _) as [resp |].
  - match goal with
    | |- context [bind ?m ?f ?hh] =>
        destruct (bind m f hh) as [r1 h1] eqn:E1;
        assert (Hext : extends (bind m f))
    end.
    { unfold _poll_generation_status.
      repeat first [apply extends_poll_loop | extends_step]. }
    destruct (Hext _ _ _ E1) as [t ->].
    rewrite <- app_assoc. cbn [app].
    destruct r1 as [a | e]; [| destruct (is_RequestException e)];
      intros H; injection H as _ <-; eauto.
  - cbn. intros H. injection H as _ <-. eauto.
Qed.

Ltac finish_reply :=
  do 2 eexists; split; [reflexivity | cbn; auto].

Lemma serve_replies (p w h : value) (h0 : list event) :
  exists reply h',
    serve p w h h0 = (Ok reply, h') /\ (snd reply = 500%Z \/ snd reply = 200%Z).
Proof.
  unfold serve, try_except, bind.
  destruct (generate_image py_repr env p w h h0) as [[g | e] h1].
  - destruct (truthy g); cbn [negb].
    + destruct (upload_to_gcs py_repr env g h1) as [[u | e] h2].
      * destruct (truthy u); cbn; finish_reply.
      * cbn; finish_reply.
    + cbn; finish_reply.
  - cbn; finish_reply.
Qed.

Lemma serve_submits (p w h : value) (h0 : list event) :
  exists reply rest,
    serve p w h h0 =
    (Ok reply,
     (h0 ++ EPost GENERATIONS_URL (submission_payload py_repr p w h) :: rest)%list)
    /\ (snd reply = 500%Z \/ snd reply = 200%Z).
Proof.
  destruct (serve_replies p w h h0) as (reply & h' & E & Hs).
  exists reply. rewrite E.
  destruct (generate_image_submits p w h h0) as (r & rest & G).
  revert E. unfold serve, try_except, bind. rewrite G.
  set (h1 := (h0 ++ _ :: rest)%list).
  destruct r as [g | e].
  - destruct (truthy g); cbn [negb].
    + destruct (upload_to_gcs py_repr env g h1) as [u h2] eqn:U.
      destruct (extends_upload_to_gcs g _ _ _ U) as [t ->].
      subst h1. rewrite <- app_assoc. cbn [app].
      destruct u as [u | e]; [destruct (truthy u) |]; cbn;
        intros H; injection H as _ <-; (eexists; split; [reflexivity | exact Hs]).
    + cbn. intros H. injection H as _ <-. (eexists; split; [reflexivity | exact Hs]).
  - cbn. intros H. injection H as _ <-. (eexists; split; [reflexivity | exact Hs]).
Qed.

(** C3. For a request with a prompt and integer (or omitted) width and
    height, the submission carries width [min(width, 900)] and height
    [min(height, 1536)], the defaults being 896 and 1192; so the width sent
    is at most 900 and the height at most 1536, and a value above the cap is
    capped, the request not being answered with 400. *)
Theorem endpoint_clamps_dimensions (d : list (string * value)) (p : value)
        (w h : Z) (h0 : list event) :
  dict_lookup "prompt" d = Some p ->
  requested "width" 896 d = Some w ->
  requested "height" 1192 d = Some h ->
  exists fields reply rest,
    generate_image_endpoint py_repr env (VDict d) h0 =
    (Ok reply, (h0 ++ EPost GENERATIONS_URL (VDict fields) :: rest)%list) /\
    dict_lookup "width" fields = Some (VInt (Z.min w 900)) /\
    dict_lookup "height" fields = Some (VInt (Z.min h 1536)) /\
    (Z.min w 900 <= 900)%Z /\ (Z.min h 1536 <= 1536)%Z /\
    snd reply <> 400%Z.
Proof.
  intros Hp Hw Hh.
  rewrite (endpoint_valid_request d p w h h0 Hp Hw Hh).
  destruct (serve_submits p (VInt (Z.min w 900)) (VInt (Z.min h 1536)) h0)
    as (reply & rest & E & Hs).
  eexists _, reply, rest. split; [exact E |].
  repeat split; try reflexivity; lia.
Qed.

(** Once the key [prompt] is there, the view never answers 400, whatever
    the other fields hold. *)
Lemma endpoint_with_prompt_replies (d : list (string * value)) (p : value)
      (h0 : list event) :
  dict_lookup "prompt" d = Some p ->
  exists reply h',
    generate_image_endpoint py_repr env (VDict d) h0 = (Ok reply, h') /\
    (snd reply = 500%Z \/ snd reply = 200%Z).
Proof.
  intros Hp.
  assert (Ht : truthy (VDict d) = true) by (destruct d; [discriminate | reflexivity]).
  unfold generate_image_endpoint, view_body, try_except.
  rewrite Ht. cbn [negb].
  unfold bind at 1. unfold lift at 1. unfold py_contains. rewrite Hp. cbn [negb].
  unfold bind at 1. unfold lift at 1. unfold py_getitem. rewrite Hp.
  unfold bind at 1. unfold lift at 1.
  destruct (py_get (VDict d) "width" (VInt 896)) as [wv | e]; [| finish_reply].
  unfold bind at 1. unfold lift at 1.
  destruct (py_min wv (VInt 900)) as [w' | e]; [| finish_reply].
  unfold bind at 1. unfold lift at 1.
  destruct (py_get (VDict d) "height" (VInt 1192)) as [hv | e]; [| finish_reply].
  unfold bind at 1. unfold lift at 1.
  destruct (py_min hv (VInt 1536)) as [h' | e]; [| finish_reply].
  exact (serve_replies p w' h' h0).
Qed.

(** On a request whose body decodes, the view is [generate_image_endpoint]
    on the decoded value. *)
Lemma endpoint_on_json_request (data : value) (h0 : list event) :
  endpoint_on_request py_repr env (JsonRequest data) h0 =
  generate_image_endpoint py_repr env data h0.
Proof. reflexivity. Qed.

(** C5 (amended). A request whose JSON body is null, or is an object
    without the key [prompt], is answered 400 with the error "A prompt is
    required", and the history of outbound calls is left as it was: nothing
    is submitted, polled, fetched or uploaded. *)
Theorem endpoint_missing_prompt (data : value) (h0 : list event) :
  data = VNone \/ (exists d, data = VDict d /\ dict_lookup "prompt" d = None) ->
  endpoint_on_request py_repr env (JsonRequest data) h0 =
  (Ok (VDict [("error", VStr "A prompt is required")], 400%Z), h0) /\
  generate_image_endpoint py_repr env data h0 =
  (Ok (VDict [("error", VStr "A prompt is required")], 400%Z), h0).
Proof.
  intros Hdata. rewrite endpoint_on_json_request.
  assert (H : generate_image_endpoint py_repr env data h0 =
              (Ok (VDict [("error", VStr "A prompt is required")], 400%Z), h0)).
  { destruct Hdata as [-> | (d & -> & Hp)].
    - reflexivity.
    - unfold generate_image_endpoint, view_body, try_except.
      destruct d as [| kv d']; [reflexivity |].
      cbn [truthy negb].
      unfold bind at 1. unfold lift at 1. unfold py_contains. rewrite Hp.
      reflexivity. }
  split; exact H.
Qed.


(** *** The polling loop *)

Lemma polls_app (url : string) (j k : nat) :
  polls url (j + k) = (polls url j ++ polls url k)%list.
Proof.
  induction j as [| j IH]; cbn [polls Nat.add app]; [reflexivity |].
  now rewrite IH.
Qed.

Ltac run_attempt :=
  unfold poll_attempt, try_except, status_answer;
  unfold bind at 1; unfold sleep at 1;
  unfold bind at 1; unfold session_get at 1.

Lemma poll_attempt_pending (generation_id : value) (h : list event) :
  status_pending (status_answer generation_id h) = true ->
  poll_attempt py_repr env generation_id h =
  (Ok None, (h ++ polls (status_url py_repr generation_id) 1)%list).
Proof.
  unfold status_answer. intros H. run_attempt.
  set (url := status_url py_repr generation_id) in *.
  destruct (http_get env _ (VStr url)) as [resp |].
  - unfold bind at 1. unfold raise_for_status.
    unfold status_pending, status_document in H.
    destruct (is_error_status resp).
    + cbn. now rewrite <- app_assoc.
    + cbn [orb] in H. unfold ret at 1.
      unfold bind at 1. unfold lift at 1. unfold py_get at 1.
      destruct (json_body resp) as [| | | | | | body]; try discriminate H.
      destruct (dict_lookup "generations_by_pk" body) as [[| | | | | | fields] |];
        try discriminate H.
      * unfold bind at 1. unfold lift at 1. unfold py_get at 1.
        destruct (dict_lookup "status" fields) as [s |].
        -- apply negb_true_iff in H. rewrite H. cbn. now rewrite <- app_assoc.
        -- cbn. now rewrite <- app_assoc.
      * cbn. now rewrite <- app_assoc.
  - cbn. now rewrite <- app_assoc.
Qed.

(** What one turn does when the status query reports COMPLETE: it reads
    the first element of [images]. *)
Ltac run_complete H :=
  let fields := fresh "fields" in
  let resp := fresh "resp" in
  let Hdoc := fresh "Hdoc" in
  let Hst := fresh "Hst" in
  let Him := fresh "Him" in
  destruct H as (fields & Hdoc & Hst & Him);
  unfold status_answer in Hdoc; run_attempt;
  destruct (http_get env _ _) as [resp |]; [| discriminate Hdoc];
  unfold status_document in Hdoc;
  unfold bind at 1; unfold raise_for_status;
  destruct (is_error_status resp); [discriminate Hdoc |];
  unfold ret at 1; unfold bind at 1; unfold lift at 1; unfold py_get at 1;
  destruct (json_body resp) as [| | | | | | body]; try discriminate Hdoc;
  destruct (dict_lookup "generations_by_pk" body) as [[| | | | | | fields'] |];
  try discriminate Hdoc;
  injection Hdoc as Hdoc; subst fields;
  [ unfold bind at 1; unfold lift at 1; unfold py_get at 1; rewrite Hst;
    cbn [py_eq_str String.eqb Ascii.eqb Bool.eqb];
    unfold bind at 1; unfold lift at 1; unfold py_get at 1; rewrite Him
  | cbn in Hst; discriminate Hst ].

Lemma poll_attempt_unsafe (generation_id : value) (h : list event)
      (descriptor : list (string * value)) (others : list value) (flag : value) :
  status_complete (status_answer generation_id h)
                  (VList (VDict descriptor :: others)) ->
  dict_lookup "nsfw" descriptor = Some flag ->
  truthy flag = true ->
  poll_attempt py_repr env generation_id h =
  (Ok (Some VNone), (h ++ polls (status_url py_repr generation_id) 1)%list).
Proof.
  intros H Hflag Ht. run_complete H.
  cbn. rewrite Hflag, Ht. cbn. now rewrite <- app_assoc.
Qed.

Lemma poll_attempt_no_images (generation_id : value) (h : list event) :
  status_complete (status_answer generation_id h) (VList []) ->
  poll_attempt py_repr env generation_id h =
  (Raise IndexError, (h ++ polls (status_url py_repr generation_id) 1)%list).
Proof.
  intros H. run_complete H.
  cbn. now rewrite <- app_assoc.
Qed.

(** Turns whose status query does not report COMPLETE are passed over. *)
Lemma poll_loop_skip (generation_id : value) (k n : nat) :
  forall h,
    (forall i, (i < k)%nat ->
       status_pending
         (status_answer generation_id
            (h ++ polls (status_url py_repr generation_id) i)%list) = true) ->
    poll_loop py_repr env generation_id (k + n) h =
    poll_loop py_repr env generation_id n
              (h ++ polls (status_url py_repr generation_id) k)%list.
Proof.
  induction k as [| k IH]; intros h Hpend.
  - cbn [polls Nat.add]. now rewrite app_nil_r.
  - cbn [Nat.add poll_loop]. unfold bind at 1.
    rewrite poll_attempt_pending.
    + rewrite IH.
      * rewrite <- app_assoc. reflexivity.
      * intros i Hi. rewrite <- app_assoc. apply (Hpend (S i)). lia.
    + specialize (Hpend O ltac:(lia)). cbn [polls] in Hpend.
      now rewrite app_nil_r in Hpend.
Qed.

(** *** The submission *)

Lemma generate_image_polls (p w h generation_id : value) (h0 : list event) :
  submission_yields
    (http_post env h0 GENERATIONS_URL (submission_payload py_repr p w h))
    generation_id ->
  generate_image py_repr env p w h h0 =
  try_except
    (_poll_generation_status py_repr env generation_id)
    is_RequestException (fun _ => ret VNone)
    (h0 ++ [EPost GENERATIONS_URL (submission_payload py_repr p w h)])%list.
Proof.
  intros (resp & job & Hpost & Hes & Hjob & Hid & Ht).
  unfold generate_image, try_except. cbv zeta.
  unfold bind at 1. unfold session_post at 1. rewrite Hpost.
  unfold bind at 1. unfold raise_for_status. rewrite Hes. unfold ret at 1.
  unfold job_document in Hjob.
  unfold bind at 1. unfold lift at 1. unfold py_get at 1.
  destruct (json_body resp) as [| | | | | | body]; try discriminate Hjob.
  destruct (dict_lookup "sdGenerationJob" body) as [[| | | | | | job'] |];
    try discriminate Hjob; injection Hjob as Hjob; subst job.
  - unfold bind at 1. unfold lift at 1. unfold py_get at 1.
    rewrite Hid, Ht. reflexivity.
  - cbn in Hid. discriminate Hid.
Qed.

Lemma endpoint_after_submission (d : list (string * value))
      (p generation_id : value) (w h : Z) (h0 : list event) :
  dict_lookup "prompt" d = Some p ->
  requested "width" 896 d = Some w ->
  requested "height" 1192 d = Some h ->
  submission_yields (submission_answer p w h h0) generation_id ->
  generate_image py_repr env p (VInt (Z.min w 900)) (VInt (Z.min h 1536)) h0 =
  try_except (_poll_generation_status py_repr env generation_id)
             is_RequestException (fun _ => ret VNone)
             (h0 ++ [submission p w h])%list /\
  generate_image_endpoint py_repr env (VDict d) h0 =
  serve p (VInt (Z.min w 900)) (VInt (Z.min h 1536)) h0.
Proof.
  intros Hp Hw Hh Hsub. split.
  - apply generate_image_polls. exact Hsub.
  - apply endpoint_valid_request; assumption.
Qed.

(** C1 (amended). When the submission yields a job identifier and each of
    the ten status queries fails in transport, has an error status, or
    returns an object whose [generations_by_pk] is absent or is an object
    with a status other than COMPLETE, the polling loop makes exactly ten
    turns, each one sleeping 10 seconds and then querying the status once,
    and yields no result; the view answers 500 "Image generation failed".
    The calls made are one submission and ten status queries. *)
Theorem endpoint_polls_ten_times (d : list (string * value))
        (p generation_id : value) (w h : Z) (h0 : list event) :
  dict_lookup "prompt" d = Some p ->
  requested "width" 896 d = Some w ->
  requested "height" 1192 d = Some h ->
  submission_yields (submission_answer p w h h0) generation_id ->
  (forall k, (k < 10)%nat ->
     status_pending
       (status_answer generation_id
          (h0 ++ submission p w h ::
                 polls (status_url py_repr generation_id) k)%list) = true) ->
  exists calls,
    calls = submission p w h :: polls (status_url py_repr generation_id) 10 /\
    _poll_generation_status py_repr env generation_id (h0 ++ [submission p w h])%list =
    (Ok VNone, (h0 ++ calls)%list) /\
    generate_image_endpoint py_repr env (VDict d) h0 =
    (Ok (VDict [("error", VStr "Image generation failed")], 500%Z),
     (h0 ++ calls)%list) /\
    count_gets calls = 10%nat /\ count_posts calls = 1%nat /\
    forall e, In e calls ->
      e = submission p w h \/ e = ESleep 10 \/
      e = EGet (VStr (status_url py_repr generation_id)).
Proof.
  intros Hp Hw Hh Hsub Hpend.
  destruct (endpoint_after_submission d p generation_id w h h0 Hp Hw Hh Hsub)
    as [Hgen Hend].
  assert (Hpoll :
    _poll_generation_status py_repr env generation_id (h0 ++ [submission p w h])%list =
    (Ok VNone,
     (h0 ++ submission p w h :: polls (status_url py_repr generation_id) 10)%list)).
  { unfold _poll_generation_status.
    change MAX_GENERATION_ATTEMPTS with (10 + 0)%nat.
    rewrite poll_loop_skip.
    - cbn [poll_loop]. unfold ret. rewrite <- app_assoc. reflexivity.
    - intros i Hi. rewrite <- app_assoc. apply Hpend. exact Hi. }
  eexists. split; [reflexivity |]. split; [exact Hpoll |]. split.
  - rewrite Hend. unfold serve, try_except at 1. unfold bind at 1.
    rewrite Hgen. unfold try_except at 1. rewrite Hpoll. reflexivity.
  - split; [reflexivity |]. split; [reflexivity |].
    intros e He. cbn in He. intuition auto.
Qed.

(** C2. When a status query reports COMPLETE and the first image
    descriptor is flagged unsafe, whatever descriptors follow it, the
    polling loop stops at that turn: no further turn and no further call is
    made, polling yields no result, and the view answers 500 "Image
    generation failed". *)
Theorem endpoint_unsafe_aborts (d : list (string * value))
        (p generation_id : value) (w h : Z) (h0 : list event) (k : nat)
        (descriptor : list (string * value)) (others : list value) (flag : value) :
  dict_lookup "prompt" d = Some p ->
  requested "width" 896 d = Some w ->
  requested "height" 1192 d = Some h ->
  submission_yields (submission_answer p w h h0) generation_id ->
  (k < 10)%nat ->
  (forall i, (i < k)%nat ->
     status_pending
       (status_answer generation_id
          (h0 ++ submission p w h ::
                 polls (status_url py_repr generation_id) i)%list) = true) ->
  status_complete
    (status_answer generation_id
       (h0 ++ submission p w h :: polls (status_url py_repr generation_id) k)%list)
    (VList (VDict descriptor :: others)) ->
  dict_lookup "nsfw" descriptor = Some flag ->
  truthy flag = true ->
  _poll_generation_status py_repr env generation_id (h0 ++ [submission p w h])%list =
  (Ok VNone,
   (h0 ++ submission p w h :: polls (status_url py_repr generation_id) (S k))%list) /\
  generate_image_endpoint py_repr env (VDict d) h0 =
  (Ok (VDict [("error", VStr "Image generation failed")], 500%Z),
   (h0 ++ submission p w h :: polls (status_url py_repr generation_id) (S k))%list).
Proof.
  intros Hp Hw Hh Hsub Hk Hpend Hdone Hflag Ht.
  destruct (endpoint_after_submission d p generation_id w h h0 Hp Hw Hh Hsub)
    as [Hgen Hend].
  assert (Hpoll :
    _poll_generation_status py_repr env generation_id (h0 ++ [submission p w h])%list =
    (Ok VNone,
     (h0 ++ submission p w h ::
         polls (status_url py_repr generation_id) (S k))%list)).
  { unfold _poll_generation_status.
    replace MAX_GENERATION_ATTEMPTS with (k + S (9 - k))%nat
      by (unfold MAX_GENERATION_ATTEMPTS; lia).
    rewrite poll_loop_skip.
    - cbn [poll_loop]. unfold bind at 1.
      rewrite (poll_attempt_unsafe generation_id _ descriptor others flag).
      + unfold ret. rewrite <- !app_assoc. cbn [app].
        replace (S k) with (k + 1)%nat by lia. rewrite polls_app. reflexivity.
      + rewrite <- app_assoc. exact Hdone.
      + exact Hflag.
      + exact Ht.
    - intros i Hi. rewrite <- app_assoc. apply Hpend. exact Hi. }
  split; [exact Hpoll |].
  rewrite Hend. unfold serve, try_except at 1. unfold bind at 1.
  rewrite Hgen. unfold try_except at 1. rewrite Hpoll. reflexivity.
Qed.

(** C9. When a status query reports COMPLETE with an empty list of
    generated images, reading element 0 raises IndexError.  It is not a
    RequestException, so neither the handler of the polling loop nor that of
    [generate_image] catches it, and the view answers 500 "Unexpected server
    error" and not "Image generation failed". *)
Theorem endpoint_empty_images_unexpected (d : list (string * value))
        (p generation_id : value) (w h : Z) (h0 : list event) (k : nat) :
  dict_lookup "prompt" d = Some p ->
  requested "width" 896 d = Some w ->
  requested "height" 1192 d = Some h ->
  submission_yields (submission_answer p w h h0) generation_id ->
  (k < 10)%nat ->
  (forall i, (i < k)%nat ->
     status_pending
       (status_answer generation_id
          (h0 ++ submission p w h ::
                 polls (status_url py_repr generation_id) i)%list) = true) ->
  status_complete
    (status_answer generation_id
       (h0 ++ submission p w h :: polls (status_url py_repr generation_id) k)%list)
    (VList []) ->
  exists h',
    is_RequestException IndexError = false /\
    _poll_generation_status py_repr env generation_id (h0 ++ [submission p w h])%list =
    (Raise IndexError, h') /\
    generate_image py_repr env p (VInt (Z.min w 900)) (VInt (Z.min h 1536)) h0 =
    (Raise IndexError, h') /\
    generate_image_endpoint py_repr env (VDict d) h0 =
    (Ok (VDict [("error", VStr "Unexpected server error")], 500%Z), h').
Proof.
  intros Hp Hw Hh Hsub Hk Hpend Hdone.
  destruct (endpoint_after_submission d p generation_id w h h0 Hp Hw Hh Hsub)
    as [Hgen Hend].
  assert (Hpoll :
    _poll_generation_status py_repr env generation_id (h0 ++ [submission p w h])%list =
    (Raise IndexError,
     ((h0 ++ [submission p w h]) ++
      polls (status_url py_repr generation_id) k ++
      polls (status_url py_repr generation_id) 1)%list)).
  { unfold _poll_generation_status.
    replace MAX_GENERATION_ATTEMPTS with (k + S (9 - k))%nat
      by (unfold MAX_GENERATION_ATTEMPTS; lia).
    rewrite poll_loop_skip.
    - cbn [poll_loop]. unfold bind at 1.
      rewrite poll_attempt_no_images.
      + rewrite <- !app_assoc. reflexivity.
      + rewrite <- app_assoc. exact Hdone.
    - intros i Hi. rewrite <- app_assoc. apply Hpend. exact Hi. }
  eexists. split; [reflexivity |]. split; [exact Hpoll |].
  assert (Hg :
    generate_image py_repr env p (VInt (Z.min w 900)) (VInt (Z.min h 1536)) h0 =
    (Raise IndexError,
     ((h0 ++ [submission p w h]) ++
      polls (status_url py_repr generation_id) k ++
      polls (status_url py_repr generation_id) 1)%list)).
  { rewrite Hgen. unfold try_except. rewrite Hpoll. reflexivity. }
  split; [exact Hg |].
  rewrite Hend. unfold serve, try_except. unfold bind at 1. rewrite Hg.
  reflexivity.
Qed.

(** C8 (amended). When the answer to the submission is an object whose
    [sdGenerationJob] is absent, or is an object whose [generationId] is
    absent, null or empty, and when the transport of the submission fails in
    the end, [generate_image]
    returns [None] and raises nothing; the submission is the only call made,
    so no polling takes place. *)
Theorem generate_image_without_job (p w h : value) (h0 : list event) :
  submission_lacks_id
    (http_post env h0 GENERATIONS_URL (submission_payload py_repr p w h)) \/
  submission_fails
    (http_post env h0 GENERATIONS_URL (submission_payload py_repr p w h)) ->
  generate_image py_repr env p w h h0 =
  (Ok VNone,
   (h0 ++ [EPost GENERATIONS_URL (submission_payload py_repr p w h)])%list).
Proof.
  unfold generate_image, try_except. cbv zeta.
  unfold bind at 1. unfold session_post at 1.
  intros [(resp & job & Hpost & Hes & Hjob & Hid) | Hfail].
  - rewrite Hpost.
    unfold bind at 1. unfold raise_for_status. rewrite Hes. unfold ret at 1.
    unfold job_document in Hjob.
    unfold bind at 1. unfold lift at 1. unfold py_get at 1.
    destruct (json_body resp) as [| | | | | | body]; try discriminate Hjob.
    destruct (dict_lookup "sdGenerationJob" body) as [[| | | | | | job'] |];
      try discriminate Hjob; injection Hjob as Hjob; subst job;
      unfold bind at 1; unfold lift at 1; unfold py_get at 1.
    + destruct (dict_lookup "generationId" job') as [g |].
      * rewrite Hid. reflexivity.
      * reflexivity.
    + reflexivity.
  - destruct (http_post env h0 _ _) as [resp |].
    + unfold bind at 1. unfold raise_for_status.
      cbn in Hfail. rewrite Hfail. reflexivity.
    + reflexivity.
Qed.

(** *** What polling returns *)

Lemma dict_lookup_set_same (k : string) (v : value) (d : list (string * value)) :
  dict_lookup k (dict_set k v d) = Some v.
Proof.
  induction d as [| [k' v'] d IH]; cbn [dict_set dict_lookup].
  - now rewrite String.eqb_refl.
  - destruct (String.eqb k k') eqn:E; cbn [dict_lookup]; rewrite E; auto.
Qed.

Lemma dict_lookup_set_other (k k' : string) (v : value) (d : list (string * value)) :
  k <> k' -> dict_lookup k (dict_set k' v d) = dict_lookup k d.
Proof.
  intros Hne. induction d as [| [k0 v0] d IH]; cbn [dict_set dict_lookup].
  - apply String.eqb_neq in Hne. now rewrite Hne.
  - destruct (String.eqb k' k0) eqn:E; cbn [dict_lookup].
    + apply String.eqb_eq in E. subst k0.
      apply String.eqb_neq in Hne. now rewrite Hne.
    + now rewrite IH.
Qed.

Lemma generation_result_fields (v : value) :
  generation_result v ->
  result_has_bytes v = true /\ result_is_complete v = true /\
  result_nsfw v = Some false.
Proof.
  intros (fields & bytes & -> & Hc & Hn). repeat split.
  - unfold result_has_bytes. now rewrite dict_lookup_set_same.
  - unfold result_is_complete in *.
    rewrite dict_lookup_set_other by discriminate. exact Hc.
  - unfold result_nsfw, py_get in *.
    rewrite dict_lookup_set_other by discriminate. exact Hn.
Qed.

Ltac caught H :=
  cbn in H;
  try match type of H with
      | context [is_RequestException ?e] => destruct (is_RequestException e)
      end;
  discriminate H.

Lemma poll_attempt_returns (generation_id : value) (h h' : list event) (v : value) :
  poll_attempt py_repr env generation_id h = (Ok (Some v), h') ->
  v = VNone \/ generation_result v.
Proof.
  run_attempt. intros H.
  destruct (http_get env _ _) as [resp |]; [| caught H].
  unfold bind at 1, raise_for_status in H.
  destruct (is_error_status resp); [caught H |].
  unfold ret at 1 in H.
  unfold bind at 1, lift at 1 in H.
  destruct (py_get (json_body resp) _ _) as [rd | e]; [| caught H].
  unfold bind at 1, lift at 1 in H.
  destruct (py_get rd "status" VNone) as [st | e] eqn:Est; [| caught H].
  destruct (py_eq_str st "COMPLETE") eqn:Hc; [| caught H].
  unfold bind at 1, lift at 1 in H.
  destruct (py_get rd "generated_images" _) as [images | e] eqn:Eim; [| caught H].
  unfold bind at 1, lift at 1 in H.
  destruct (py_index0 images) as [image_data | e] eqn:Eix; [| caught H].
  unfold bind at 1, lift at 1 in H.
  destruct (py_get image_data "nsfw" _) as [nsfw | e] eqn:Ens; [| caught H].
  destruct (truthy nsfw) eqn:Hn.
  { cbn in H. injection H as <- _. now left. }
  unfold bind at 1, lift at 1 in H.
  destruct (py_get image_data "url" VNone) as [url | e]; [| caught H].
  destruct (truthy url); cbn [negb] in H.
  2: { cbn in H. injection H as <- _. now left. }
  unfold bind at 1, session_get at 1 in H.
  destruct (http_get env _ url) as [iresp |]; [| caught H].
  unfold bind at 1, raise_for_status in H.
  destruct (is_error_status iresp); [caught H |].
  unfold ret at 1 in H.
  unfold bind at 1, lift at 1 in H.
  destruct rd as [| | | | | | fields]; try discriminate Est.
  cbn in H. injection H as <- _.
  right. exists fields, (content iresp). split; [reflexivity |].
  unfold result_is_complete, result_nsfw. rewrite Eim, Eix, Ens, Hn.
  split; [| reflexivity].
  unfold py_get in Est.
  destruct (dict_lookup "status" fields) as [s |]; injection Est as <-;
    [exact Hc | discriminate Hc].
Qed.

Lemma poll_loop_returns (generation_id : value) (n : nat) :
  forall h h' v,
    poll_loop py_repr env generation_id n h = (Ok v, h') ->
    v = VNone \/ generation_result v.
Proof.
  induction n as [| n IH]; intros h h' v; cbn [poll_loop].
  - intros H. injection H as <- _. now left.
  - unfold bind.
    destruct (poll_attempt py_repr env generation_id h) as [[[v0 |] | e] h1] eqn:E.
    + intros H. injection H as <- _. exact (poll_attempt_returns _ _ _ _ E).
    + apply IH.
    + discriminate.
Qed.

(** C4. Every generation result that the polling step returns has the
    image bytes attached, the status COMPLETE and a first image whose NSFW
    flag is false; so on returned results the bytes are attached if and only
    if the status is COMPLETE and the flag false. *)
Theorem polling_result_bytes_iff (generation_id : value) (h h' : list event)
        (v : value) :
  _poll_generation_status py_repr env generation_id h = (Ok v, h') ->
  v <> VNone ->
  (result_has_bytes v = true <->
   result_is_complete v = true /\ result_nsfw v = Some false) /\
  result_has_bytes v = true.
Proof.
  intros H Hv.
  destruct (poll_loop_returns _ _ _ _ _ H) as [-> | Hres]; [congruence |].
  destruct (generation_result_fields v Hres) as (Hb & Hc & Hn).
  tauto.
Qed.

(** *** File names *)

Lemma length_append (s t : string) :
  String.length (s ++ t) = (String.length s + String.length t)%nat.
Proof. induction s as [| c s IH]; cbn; [reflexivity | now rewrite IH]. Qed.

Lemma hex_fixed_length (k : nat) :
  forall n acc, String.length (hex_fixed k n acc) = (k + String.length acc)%nat.
Proof.
  induction k as [| k IH]; intros n acc; cbn [hex_fixed].
  - reflexivity.
  - rewrite IH. cbn [String.length]. lia.
Qed.

Lemma hex_char_is_hex (d : N) : (d < 16)%N -> is_hex_char (hex_char d) = true.
Proof.
  intros Hd. unfold hex_char.
  assert (Hm : (N.to_nat d < 16)%nat) by lia.
  revert Hm. generalize (N.to_nat d) as m. intros m Hm.
  do 16 (destruct m as [| m]; [reflexivity |]). lia.
Qed.

Lemma hex_fixed_all_hex (k : nat) :
  forall n acc,
    all_chars is_hex_char acc = true ->
    all_chars is_hex_char (hex_fixed k n acc) = true.
Proof.
  induction k as [| k IH]; intros n acc Hacc; cbn [hex_fixed].
  - exact Hacc.
  - apply IH. cbn [all_chars]. rewrite Hacc, hex_char_is_hex; [reflexivity |].
    apply N.mod_lt. discriminate.
Qed.

Lemma substring_0_length (n : nat) :
  forall s, (n <= String.length s)%nat -> String.length (substring 0 n s) = n.
Proof.
  induction n as [| n IH]; intros [| c s] Hn; cbn in *; try reflexivity; try lia.
  rewrite IH; [reflexivity | lia].
Qed.

Lemma substring_0_all (q : ascii -> bool) (n : nat) :
  forall s, all_chars q s = true -> all_chars q (substring 0 n s) = true.
Proof.
  induction n as [| n IH]; intros [| c s] Hs; cbn in *; try reflexivity.
  apply andb_true_iff in Hs as [Hc Hs]. rewrite Hc, IH; auto.
Qed.

(** The random part of a file name: 8 hexadecimal digits. *)
Lemma uuid_prefix_form (u : N) :
  String.length (substring 0 8 (uuid_hex u)) = 8%nat /\
  all_chars is_hex_char (substring 0 8 (uuid_hex u)) = true.
Proof.
  unfold uuid_hex. split.
  - apply substring_0_length. rewrite hex_fixed_length. cbn. lia.
  - apply substring_0_all, hex_fixed_all_hex. reflexivity.
Qed.

Lemma zpad_length (k : nat) (bound n : N) :
  zpad_fits k bound = true ->
  (n < bound)%N ->
  String.length (zpad k n) = k.
Proof.
  unfold zpad_fits. intros Hfits Hn.
  rewrite forallb_forall in Hfits.
  specialize (Hfits (N.to_nat n)). rewrite N2Nat.id in Hfits.
  apply Nat.eqb_eq, Hfits, in_seq. lia.
Qed.

Lemma zpad_fits_2 : zpad_fits 2 100 = true.
Proof. vm_compute. reflexivity. Qed.

Lemma zpad_fits_4 : zpad_fits 4 10000 = true.
Proof. vm_compute. reflexivity. Qed.

(** The timestamp of a file name has 15 characters, down to the second. *)
Lemma strftime_length (dt : datetime) :
  datetime_valid dt = true -> String.length (strftime dt) = 15%nat.
Proof.
  unfold datetime_valid. intros H.
  repeat (apply andb_true_iff in H; destruct H as [H ?]).
  repeat match goal with
         | H : (_ <=? _)%N = true |- _ => apply N.leb_le in H
         end.
  unfold strftime. rewrite !length_append.
  rewrite (zpad_length 4 10000 _ zpad_fits_4) by lia.
  rewrite !(zpad_length 2 100 _ zpad_fits_2) by lia.
  reflexivity.
Qed.

(** *** The upload *)

Lemma upload_to_gcs_spec (image_data : value) (h : list event) :
  exists u h',
    upload_to_gcs py_repr env image_data h = (Ok u, h') /\
    if upload_succeeds image_data h
    then exists b,
        py_get image_data "image_bytes" VNone = Ok b /\
        u = VStr (blob_public_url env (object_name h)) /\
        h' = (h ++ [EUpload (object_name h) b "image/jpeg";
                    EMakePublic (object_name h)])%list
    else u = VNone.
Proof.
  unfold upload_to_gcs, try_except, upload_succeeds.
  unfold bind at 1. unfold lift at 1.
  destruct (py_get image_data "image_bytes" VNone) as [b | e].
  2: { do 2 eexists. split; reflexivity. }
  destruct (truthy b); cbn [negb andb].
  2: { do 2 eexists. split; reflexivity. }
  unfold bind at 1. unfold now at 1.
  unfold bind at 1. unfold uuid4_hex at 1.
  fold (object_name h).
  unfold bind at 1. unfold upload_from_string at 1.
  destruct (blob_upload env h (object_name h) b "image/jpeg"); cbn [andb].
  2: { do 2 eexists. split; reflexivity. }
  unfold bind at 1. unfold make_public at 1.
  destruct (blob_make_public env _ (object_name h)).
  2: { do 2 eexists. split; reflexivity. }
  do 2 eexists. split; [reflexivity |].
  exists b. rewrite <- app_assoc. repeat split.
Qed.

Ltac handled H :=
  cbn in H;
  match type of H with
  | context [is_RequestException ?e] =>
      destruct (is_RequestException e);
      [cbn in H; injection H as <- _; now left | discriminate H]
  end.

Lemma generate_image_returns (p w h g : value) (h0 h1 : list event) :
  generate_image py_repr env p w h h0 = (Ok g, h1) ->
  g = VNone \/ generation_result g.
Proof.
  unfold generate_image, try_except. cbv zeta.
  unfold bind at 1. unfold session_post at 1. intros H.
  destruct (http_post env h0 _ _) as [resp |].
  2: { cbn in H. injection H as <- _. now left. }
  unfold bind at 1, raise_for_status in H.
  destruct (is_error_status resp).
  { cbn in H. injection H as <- _. now left. }
  unfold ret at 1 in H.
  unfold bind at 1, lift at 1 in H.
  destruct (py_get (json_body resp) _ _) as [job | e]; [| handled H].
  unfold bind at 1, lift at 1 in H.
  destruct (py_get job "generationId" VNone) as [generation_id | e]; [| handled H].
  destruct (truthy generation_id); cbn [negb] in H.
  - destruct (_poll_generation_status py_repr env generation_id _)
      as [[v | e] h2] eqn:E.
    + injection H as <- _. exact (poll_loop_returns _ _ _ _ _ E).
    + handled H.
  - cbn in H. injection H as <- _. now left.
Qed.

(** *** Success *)

Lemma serve_success (p w h : value) (reply : value * Z) (h0 h' : list event) :
  serve p w h h0 = (Ok reply, h') ->
  snd reply = 200%Z ->
  exists g h1 u,
    generate_image py_repr env p w h h0 = (Ok g, h1) /\ truthy g = true /\
    upload_to_gcs py_repr env g h1 = (Ok u, h') /\ truthy u = true /\
    reply = (VDict [("success", VBool true); ("prompt", p); ("image_url", u)],
             200%Z).
Proof.
  unfold serve, try_except, bind.
  destruct (generate_image py_repr env p w h h0) as [[g | e] h1] eqn:Hgen.
  - destruct (truthy g) eqn:Hg; cbn [negb].
    + destruct (upload_to_gcs py_repr env g h1) as [[u | e] h2] eqn:Hup.
      * destruct (truthy u) eqn:Hu; cbn [negb].
        -- intros H _. injection H as <- <-. exists g, h1, u.
           repeat split; auto.
        -- intros H Hs. injection H as <- _. discriminate Hs.
      * intros H Hs. injection H as <- _. discriminate Hs.
    + intros H Hs. injection H as <- _. discriminate Hs.
  - intros H Hs. injection H as <- _. discriminate Hs.
Qed.

(** A 200 answer comes out of [serve], on a body that is an object with
    the key [prompt]. *)
Lemma endpoint_success_request (data : value) (reply : value * Z)
      (h0 h' : list event) :
  generate_image_endpoint py_repr env data h0 = (Ok reply, h') ->
  snd reply = 200%Z ->
  exists d p w h,
    data = VDict d /\ dict_lookup "prompt" d = Some p /\
    serve p w h h0 = (Ok reply, h').
Proof.
  unfold generate_image_endpoint, view_body, try_except. intros H Hs.
  destruct (truthy data) eqn:Ht; cbn [negb] in H.
  2: { injection H as <- _. discriminate Hs. }
  unfold bind at 1, lift at 1 in H.
  destruct (py_contains "prompt" data) as [[|] | e] eqn:Hc; cbn [negb] in H.
  2, 3: injection H as <- _; discriminate Hs.
  unfold bind at 1, lift at 1 in H.
  destruct (py_getitem data "prompt") as [p | e] eqn:Hp.
  2: { injection H as <- _. discriminate Hs. }
  destruct data as [| | | | | | d]; try discriminate Hp.
  cbn [py_getitem] in Hp.
  destruct (dict_lookup "prompt" d) as [p' |] eqn:Hl; [| discriminate Hp].
  injection Hp as ->.
  unfold bind at 1, lift at 1 in H.
  destruct (py_get (VDict d) "width" (VInt 896)) as [wv | e].
  2: { injection H as <- _. discriminate Hs. }
  unfold bind at 1, lift at 1 in H.
  destruct (py_min wv (VInt 900)) as [w | e].
  2: { injection H as <- _. discriminate Hs. }
  unfold bind at 1, lift at 1 in H.
  destruct (py_get (VDict d) "height" (VInt 1192)) as [hv | e].
  2: { injection H as <- _. discriminate Hs. }
  unfold bind at 1, lift at 1 in H.
  destruct (py_min hv (VInt 1536)) as [h | e].
  2: { injection H as <- _. discriminate Hs. }
  exists d, p, w, h. auto.
Qed.

(** C6. When the view answers 200, the body has [success] true, its
    [prompt] is the prompt of the request as it came, without the directives
    added for the provider, and its [image_url] is the public URL the object
    store gives for the uploaded object; that object was uploaded with
    content type image/jpeg, under the folder prefix followed by a file name
    made of the timestamp to the second, an underscore, 8 hexadecimal digits
    and the extension .jpg. *)
Theorem endpoint_success (data : value) (reply : value * Z) (h0 h' : list event) :
  generate_image_endpoint py_repr env data h0 = (Ok reply, h') ->
  snd reply = 200%Z ->
  exists d p w h bytes rest,
    let h1 :=
      (h0 ++ EPost GENERATIONS_URL (submission_payload py_repr p w h) :: rest)%list in
    let timestamp := strftime (datetime_now env h1) in
    let suffix := substring 0 8 (uuid_hex (uuid4 env h1)) in
    let name :=
      py_str py_repr (folder_name env) ++ timestamp ++ "_" ++ suffix ++ ".jpg" in
    data = VDict d /\ dict_lookup "prompt" d = Some p /\
    dict_lookup "prompt"
      (match submission_payload py_repr p w h with VDict f => f | _ => [] end) =
    Some (VStr (py_str py_repr p ++ ", " ++ PROMPT_SUFFIX)) /\
    reply = (VDict [("success", VBool true);
                    ("prompt", p);
                    ("image_url", VStr (blob_public_url env name))], 200%Z) /\
    h' = (h1 ++ [EUpload name (VBytes bytes) "image/jpeg"; EMakePublic name])%list /\
    String.length suffix = 8%nat /\
    all_chars is_hex_char suffix = true /\
    (datetime_valid (datetime_now env h1) = true -> String.length timestamp = 15%nat).
Proof.
  intros H Hs.
  destruct (endpoint_success_request data reply h0 h' H Hs)
    as (d & p & w & h & -> & Hp & Hserve).
  destruct (serve_success p w h reply h0 h' Hserve Hs)
    as (g & h1 & u & Hgen & Hg & Hup & Hu & ->).
  destruct (generate_image_submits p w h h0) as (r & rest & Hsub).
  rewrite Hgen in Hsub. injection Hsub as _ ->.
  destruct (generate_image_returns p w h g h0 _ Hgen)
    as [-> | (fields & bytes & -> & _)]; [discriminate Hg |].
  destruct (upload_to_gcs_spec
              (VDict (dict_set "image_bytes" (VBytes bytes) fields))
              (h0 ++ EPost GENERATIONS_URL (submission_payload py_repr p w h) :: rest)%list)
    as (u' & h2 & Hup' & Hspec).
  rewrite Hup in Hup'. injection Hup' as <- <-.
  destruct (upload_succeeds _ _).
  2: { subst u. discriminate Hu. }
  destruct Hspec as (b & Hb & -> & ->).
  unfold py_get in Hb. rewrite dict_lookup_set_same in Hb. injection Hb as <-.
  exists d, p, w, h, bytes, rest. cbv zeta.
  destruct (uuid_prefix_form
              (uuid4 env (h0 ++ EPost GENERATIONS_URL
                                     (submission_payload py_repr p w h) :: rest)%list))
    as [Hlen Hhex].
  repeat split; try assumption.
  apply strftime_length.
Qed.

(** C7 as amended.  [upload_to_gcs] never raises: it returns a result, which
    is [None] as soon as a step of the upload fails (no bytes, the store
    refusing the object or its publication).  [generate_image] never lets a
    RequestException out.  The view itself always answers, and answers 500
    "Image upload failed" when generation gave a result and the upload
    none. *)
Theorem failures_do_not_escape (d : list (string * value)) (p : value)
        (w h : Z) (h0 : list event) :
  dict_lookup "prompt" d = Some p ->
  requested "width" 896 d = Some w ->
  requested "height" 1192 d = Some h ->
  (forall image_data hist,
      exists u hist',
        upload_to_gcs py_repr env image_data hist = (Ok u, hist') /\
        (upload_succeeds image_data hist = false -> u = VNone)) /\
  (forall e hist,
      generate_image py_repr env p (VInt (Z.min w 900)) (VInt (Z.min h 1536)) h0 =
      (Raise e, hist) ->
      is_RequestException e = false) /\
  (exists reply hist,
      generate_image_endpoint py_repr env (VDict d) h0 = (Ok reply, hist)) /\
  (forall g h1 u h2,
      generate_image py_repr env p (VInt (Z.min w 900)) (VInt (Z.min h 1536)) h0 =
      (Ok g, h1) ->
      truthy g = true ->
      upload_to_gcs py_repr env g h1 = (Ok u, h2) ->
      truthy u = false ->
      generate_image_endpoint py_repr env (VDict d) h0 =
      (Ok (VDict [("error", VStr "Image upload failed")], 500%Z), h2)).
Proof.
  intros Hp Hw Hh. repeat split.
  - intros image_data hist.
    destruct (upload_to_gcs_spec image_data hist) as (u & hist' & E & Hspec).
    exists u, hist'. split; [exact E |].
    intros Hfail. rewrite Hfail in Hspec. exact Hspec.
  - intros e hist. unfold generate_image.
    apply try_except_escapes. intros e0 hh. now exists VNone, hh.
  - destruct (endpoint_with_prompt_replies d p h0 Hp) as (reply & hist & E & _).
    now exists reply, hist.
  - intros g h1 u h2 Hgen Hg Hup Hu.
    rewrite (endpoint_valid_request d p w h h0 Hp Hw Hh).
    unfold serve, try_except. unfold bind at 1. rewrite Hgen, Hg. cbn [negb].
    unfold bind at 1. rewrite Hup, Hu. reflexivity.
Qed.

(** *** The calls of a run, and requests of the wrong shape *)

Lemma count_app (q : event -> bool) (t1 t2 : list event) :
  count q (t1 ++ t2) = (count q t1 + count q t2)%nat.
Proof. unfold count. now rewrite filter_app, length_app. Qed.

Lemma total_sleep_app (t1 t2 : list event) :
  total_sleep (t1 ++ t2) = (total_sleep t1 + total_sleep t2)%Z.
Proof.
  induction t1 as [| e t1 IH]; cbn [app total_sleep]; [reflexivity |].
  destruct e; rewrite IH; lia.
Qed.

Ltac end_turn H :=
  cbn in H;
  try match type of H with
      | context [is_RequestException ?e] => destruct (is_RequestException e)
      end;
  cbn in H; injection H as _ <-;
  rewrite <- ?app_assoc; cbn [app];
  (eexists; split;
   [reflexivity | first [left; reflexivity | right; eexists; reflexivity]]).

Lemma poll_attempt_calls (generation_id : value) (h h' : list event)
      (r : result (option value)) :
  poll_attempt py_repr env generation_id h = (r, h') ->
  exists t, h' = (h ++ t)%list /\ turn_calls (status_url py_repr generation_id) t.
Proof.
  unfold poll_attempt, try_except, turn_calls.
  unfold bind at 1; unfold sleep at 1.
  unfold bind at 1; unfold session_get at 1.
  intros H.
  destruct (http_get env _ _) as [resp |]; [| end_turn H].
  unfold bind at 1, raise_for_status in H.
  destruct (is_error_status resp); [end_turn H |].
  unfold ret at 1 in H.
  unfold bind at 1, lift at 1 in H.
  destruct (py_get (json_body resp) _ _) as [rd | e]; [| end_turn H].
  unfold bind at 1, lift at 1 in H.
  destruct (py_get rd "status" VNone) as [st | e]; [| end_turn H].
  destruct (py_eq_str st "COMPLETE"); [| end_turn H].
  unfold bind at 1, lift at 1 in H.
  destruct (py_get rd "generated_images" _) as [images | e]; [| end_turn H].
  unfold bind at 1, lift at 1 in H.
  destruct (py_index0 images) as [image_data | e]; [| end_turn H].
  unfold bind at 1, lift at 1 in H.
  destruct (py_get image_data "nsfw" _) as [nsfw | e]; [| end_turn H].
  destruct (truthy nsfw); [end_turn H |].
  unfold bind at 1, lift at 1 in H.
  destruct (py_get image_data "url" VNone) as [url | e]; [| end_turn H].
  destruct (truthy url); cbn [negb] in H; [| end_turn H].
  unfold bind at 1, session_get at 1 in H.
  destruct (http_get env _ url) as [iresp |]; [| end_turn H].
  unfold bind at 1, raise_for_status in H.
  destruct (is_error_status iresp); [end_turn H |].
  unfold ret at 1 in H.
  unfold bind at 1, lift at 1 in H.
  destruct (py_setitem rd _ _) as [rd' | e]; end_turn H.
Qed.

Lemma fixed_sleeps_total (t : list event) :
  fixed_sleeps t = true ->
  total_sleep t = (10 * Z.of_nat (count is_sleep t))%Z /\
  forall s, In (ESleep s) t -> s = 10%Z.
Proof.
  unfold fixed_sleeps, count.
  induction t as [| e t IH]; cbn [forallb total_sleep filter].
  - intros _. split; [reflexivity | intros s []].
  - intros H. apply andb_true_iff in H as [He Ht].
    destruct (IH Ht) as [IHz IHs].
    destruct e; cbn [is_sleep List.length]; (split; [try exact IHz |]);
      try (intros s0 [Heq | Hin]; [discriminate Heq | exact (IHs s0 Hin)]).
    + apply Z.eqb_eq in He. subst seconds. unfold GENERATION_WAIT_TIME. lia.
    + apply Z.eqb_eq in He. subst seconds.
      intros s0 [Heq | Hin]; [now injection Heq as <- | exact (IHs s0 Hin)].
Qed.

Lemma turn_within_budget (url : string) (t : list event) :
  turn_calls url t ->
  count is_sleep t = 1%nat /\ fixed_sleeps t = true /\
  (1 <= count is_get t <= 2)%nat /\
  count is_post t = 0%nat /\ count is_store_call t = 0%nat.
Proof.
  intros [-> | [u ->]]; cbn; repeat split; lia.
Qed.

Lemma within_budget_nil (n : nat) : within_budget n [].
Proof. unfold within_budget. cbn. repeat split; lia. Qed.

Lemma within_budget_weaken (n m : nat) (t : list event) :
  (n <= m)%nat -> within_budget n t -> within_budget m t.
Proof. unfold within_budget. intros Hnm (Hs & Hf & Hg & Hp & Hu). repeat split; lia || assumption. Qed.

Lemma poll_loop_calls (generation_id : value) (n : nat) :
  forall h h' r,
    poll_loop py_repr env generation_id n h = (r, h') ->
    exists t, h' = (h ++ t)%list /\ within_budget n t.
Proof.
  induction n as [| n IH]; intros h h' r; cbn [poll_loop].
  - intros H. injection H as _ <-. exists []. rewrite app_nil_r.
    split; [reflexivity | apply within_budget_nil].
  - unfold bind.
    destruct (poll_attempt py_repr env generation_id h) as [r1 h1] eqn:E.
    destruct (poll_attempt_calls _ _ _ _ E) as (t1 & -> & Hturn).
    destruct (turn_within_budget _ _ Hturn) as (Hs & Hf & Hg & Hp & Hu).
    assert (Hone : within_budget (S n) t1).
    { unfold within_budget. rewrite Hs, Hf, Hp, Hu. repeat split; lia. }
    destruct r1 as [[v |] | e].
    + intros H. injection H as _ <-. now exists t1.
    + intros H. destruct (IH _ _ _ H) as (t2 & -> & Hrest).
      exists (t1 ++ t2)%list. rewrite app_assoc. split; [reflexivity |].
      destruct Hrest as (Hs2 & Hf2 & Hg2 & Hp2 & Hu2).
      unfold within_budget, fixed_sleeps in *.
      rewrite !count_app, forallb_app, Hs, Hf, Hp, Hu, Hf2, Hp2, Hu2.
      repeat split; lia.
    + intros H. injection H as _ <-. now exists t1.
Qed.

(** X1. Whatever the provider answers, a run of the polling loop sleeps at
    most 10 times, 10 seconds each time and so at most 100 seconds in all,
    makes at most 20 GET requests (a status query per turn and at most one
    image fetch per turn), and makes no submission and no call to the
    store. *)
Theorem polling_stays_within_budget (generation_id : value) (h h' : list event)
        (r : result value) :
  _poll_generation_status py_repr env generation_id h = (r, h') ->
  exists t,
    h' = (h ++ t)%list /\
    (count is_sleep t <= 10)%nat /\
    (total_sleep t <= 100)%Z /\
    (forall s, In (ESleep s) t -> s = 10%Z) /\
    (count is_get t <= 20)%nat /\
    count is_post t = 0%nat /\
    count is_store_call t = 0%nat.
Proof.
  intros H.
  destruct (poll_loop_calls _ _ _ _ _ H) as (t & -> & Hs & Hf & Hg & Hp & Hu).
  destruct (fixed_sleeps_total t Hf) as [Hz Hall].
  exists t. unfold MAX_GENERATION_ATTEMPTS in Hs.
  repeat split; try lia. exact Hall.
Qed.

Ltac end_submission H :=
  cbn in H;
  try match type of H with
      | context [is_RequestException ?e] => destruct (is_RequestException e)
      end;
  cbn in H; injection H as _ <-;
  (exists []; split; [now rewrite app_nil_r | apply within_budget_nil]).

Lemma generate_image_calls (p w h : value) (h0 h' : list event)
      (r : result value) :
  generate_image py_repr env p w h h0 = (r, h') ->
  exists t,
    h' = ((h0 ++ [EPost GENERATIONS_URL (submission_payload py_repr p w h)])
            ++ t)%list /\ within_budget 10 t.
Proof.
  unfold generate_image, try_except. cbv zeta.
  unfold bind at 1. unfold session_post at 1. intros H.
  destruct (http_post env h0 _ _) as [resp |]; [| end_submission H].
  unfold bind at 1, raise_for_status in H.
  destruct (is_error_status resp); [end_submission H |].
  unfold ret at 1 in H.
  unfold bind at 1, lift at 1 in H.
  destruct (py_get (json_body resp) _ _) as [job | e]; [| end_submission H].
  unfold bind at 1, lift at 1 in H.
  destruct (py_get job "generationId" VNone) as [generation_id | e];
    [| end_submission H].
  destruct (truthy generation_id); cbn [negb] in H; [| end_submission H].
  destruct (_poll_generation_status py_repr env generation_id _)
    as [r1 h1] eqn:E.
  destruct (poll_loop_calls _ _ _ _ _ E) as (t & -> & Hb).
  exists t. split; [| exact Hb].
  destruct r1 as [v | e]; [| destruct (is_RequestException e)];
    cbn in H; injection H as _ <-; reflexivity.
Qed.

(** X2. Whatever the provider answers, [generate_image] submits exactly
    once, before anything else; what follows is the polling: at most 10
    sleeps of 10 seconds, at most 20 GET requests, and no call to the
    store. *)
Theorem generate_image_submits_once (p w h : value) (h0 h' : list event)
        (r : result value) :
  generate_image py_repr env p w h h0 = (r, h') ->
  exists t,
    h' = (h0 ++ EPost GENERATIONS_URL (submission_payload py_repr p w h) :: t)%list /\
    count is_post (EPost GENERATIONS_URL (submission_payload py_repr p w h) :: t)
    = 1%nat /\
    (count is_sleep t <= 10)%nat /\
    (total_sleep t <= 100)%Z /\
    (count is_get t <= 20)%nat /\
    count is_store_call t = 0%nat.
Proof.
  intros H.
  destruct (generate_image_calls p w h h0 h' r H)
    as (t & -> & Hs & Hf & Hg & Hp & Hu).
  destruct (fixed_sleeps_total t Hf) as [Hz _].
  exists t. rewrite <- app_assoc. cbn [app].
  split; [reflexivity |].
  split; [change (S (count is_post t) = 1%nat); now rewrite Hp |].
  repeat split; try lia.
Qed.

Ltac end_upload H :=
  cbn in H; injection H as <- <-;
  rewrite <- ?app_assoc; cbn [app];
  (do 2 eexists; split; [reflexivity |]; split; [reflexivity |]).

(** The cases of [upload_to_gcs], by the bytes it is given and what the
    store answers. *)
Lemma upload_to_gcs_cases (image_data : value) (h h' : list event)
      (r : result value) :
  upload_to_gcs py_repr env image_data h = (r, h') ->
  exists u t,
    r = Ok u /\ h' = (h ++ t)%list /\
    match py_get image_data "image_bytes" VNone with
    | Ok b =>
        if truthy b
        then
          (blob_upload env h (object_name h) b "image/jpeg" = false /\
           t = [EUpload (object_name h) b "image/jpeg"] /\ u = VNone) \/
          (blob_upload env h (object_name h) b "image/jpeg" = true /\
           t = [EUpload (object_name h) b "image/jpeg";
                EMakePublic (object_name h)] /\
           (u = VNone \/
            u = VStr (blob_public_url env (object_name h))))
        else t = [] /\ u = VNone
    | Raise _ => t = [] /\ u = VNone
    end.
Proof.
  unfold upload_to_gcs, try_except.
  unfold bind at 1. unfold lift at 1. intros H.
  destruct (py_get image_data "image_bytes" VNone) as [b | e].
  2: { cbn in H. injection H as <- <-. exists VNone, [].
       rewrite app_nil_r. auto. }
  destruct (truthy b); cbn [negb] in H.
  2: { cbn in H. injection H as <- <-. exists VNone, [].
       rewrite app_nil_r. auto. }
  unfold bind at 1, now at 1 in H.
  unfold bind at 1, uuid4_hex at 1 in H.
  fold (object_name h) in H.
  unfold bind at 1, upload_from_string at 1 in H.
  destruct (blob_upload env h (object_name h) b "image/jpeg").
  2: { end_upload H. left. auto. }
  unfold bind at 1, make_public at 1 in H.
  destruct (blob_make_public env _ (object_name h));
    end_upload H; right; auto.
Qed.

(** X3. [upload_to_gcs] never raises, and its calls and result are these.
    Without bytes under [image_bytes] (no such key, an empty value, or an
    argument that is not a dict) it makes no call and returns [None].  With
    bytes it uploads them once, as image/jpeg and under the object name of
    the moment; if the store refuses, that is the only call and the result is
    [None]; otherwise it asks for publication, and returns the public URL of
    the object when the publication works and [None] when it does not. *)
Theorem upload_to_gcs_calls (image_data : value) (h h' : list event)
        (r : result value) :
  upload_to_gcs py_repr env image_data h = (r, h') ->
  exists u t,
    r = Ok u /\ h' = (h ++ t)%list /\
    match py_get image_data "image_bytes" VNone with
    | Ok b =>
        let name := object_name h in
        let upload := EUpload name b "image/jpeg" in
        if truthy b
        then
          if blob_upload env h name b "image/jpeg"
          then
            t = [upload; EMakePublic name] /\
            u = (if blob_make_public env (h ++ [upload])%list name
                 then VStr (blob_public_url env name)
                 else VNone)
          else t = [upload] /\ u = VNone
        else t = [] /\ u = VNone
    | Raise _ => t = [] /\ u = VNone
    end.
Proof.
  unfold upload_to_gcs, try_except.
  unfold bind at 1. unfold lift at 1. intros H.
  destruct (py_get image_data "image_bytes" VNone) as [b | e].
  2: { cbn in H. injection H as <- <-. exists VNone, [].
       rewrite app_nil_r. auto. }
  cbv zeta.
  destruct (truthy b); cbn [negb] in H.
  2: { cbn in H. injection H as <- <-. exists VNone, [].
       rewrite app_nil_r. auto. }
  unfold bind at 1, now at 1 in H.
  unfold bind at 1, uuid4_hex at 1 in H.
  fold (object_name h) in H.
  unfold bind at 1, upload_from_string at 1 in H.
  destruct (blob_upload env h (object_name h) b "image/jpeg").
  2: { end_upload H. auto. }
  unfold bind at 1, make_public at 1 in H.
  destruct (blob_make_public env _ (object_name h));
    end_upload H; auto.
Qed.

Lemma serve_cases (p w h : value) (h0 h' : list event) (r : result (value * Z)) :
  serve p w h h0 = (r, h') ->
  exists reply tp ts,
    r = Ok reply /\
    h' = (((h0 ++ [EPost GENERATIONS_URL (submission_payload py_repr p w h)])
             ++ tp) ++ ts)%list /\
    within_budget 10 tp /\ served p reply ts.
Proof.
  unfold serve, try_except. unfold bind at 1.
  destruct (generate_image py_repr env p w h h0) as [rg h1] eqn:Hgen.
  destruct (generate_image_calls p w h h0 h1 rg Hgen) as (tp & -> & Hb).
  destruct rg as [g | e].
  2: { cbn. intros H. injection H as <- <-.
       eexists _, tp, []. rewrite app_nil_r.
       repeat split; try apply Hb. left. auto. }
  destruct (truthy g); cbn [negb].
  2: { cbn. intros H. injection H as <- <-.
       eexists _, tp, []. rewrite app_nil_r.
       repeat split; try apply Hb. right. left. auto. }
  unfold bind at 1.
  destruct (upload_to_gcs py_repr env g _) as [ru h2] eqn:Hup.
  destruct (upload_to_gcs_cases g _ _ _ Hup) as (u & ts & -> & -> & Hc).
  assert (Hstore : exists name b, store_calls name b ts /\
            (u = VNone \/
             (u = VStr (blob_public_url env name) /\
              ts = [EUpload name b "image/jpeg"; EMakePublic name]))).
  { destruct (py_get g "image_bytes" VNone) as [b | e].
    - destruct (truthy b).
      + destruct Hc as [(_ & -> & ->) | (_ & -> & [-> | ->])];
          eexists _, b; (split; [unfold store_calls; auto | auto]).
      + destruct Hc as [-> ->]. exists EmptyString, b. split; [left |]; auto.
    - destruct Hc as [-> ->]. exists EmptyString, VNone. split; [left |]; auto. }
  destruct Hstore as (name & b & Hs & Hu).
  destruct (truthy u) eqn:Ht; cbn [negb]; cbn; intros H; injection H as <- <-;
    eexists _, tp, ts; (split; [reflexivity |]); (split; [reflexivity |]);
    (split; [exact Hb |]).
  - destruct Hu as [-> | [-> ->]]; [discriminate Ht |].
    right. right. right. exists name, b. auto.
  - right. right. left. split; [reflexivity |]. exists name, b. exact Hs.
Qed.

(** The view makes no call before it has read the request in full. *)
Lemma endpoint_cases (data : value) (h0 h' : list event) (r : result (value * Z)) :
  generate_image_endpoint py_repr env data h0 = (r, h') ->
  (h' = h0 /\
   (r = Ok (error_reply "A prompt is required" 400) \/
    r = Ok (error_reply "Unexpected server error" 500))) \/
  (exists p w h,
      py_getitem data "prompt" = Ok p /\
      serve p w h h0 = (r, h')).
Proof.
  unfold generate_image_endpoint, view_body, try_except. intros H.
  destruct (truthy data); cbn [negb] in H.
  2: { injection H as <- <-. left. auto. }
  unfold bind at 1, lift at 1 in H.
  destruct (py_contains "prompt" data) as [[|] | e]; cbn [negb] in H.
  2, 3: injection H as <- <-; left; auto.
  unfold bind at 1, lift at 1 in H.
  destruct (py_getitem data "prompt") as [p | e].
  2: { injection H as <- <-. left. auto. }
  unfold bind at 1, lift at 1 in H.
  destruct (py_get data "width" (VInt 896)) as [wv | e].
  2: { injection H as <- <-. left. auto. }
  unfold bind at 1, lift at 1 in H.
  destruct (py_min wv (VInt 900)) as [w | e].
  2: { injection H as <- <-. left. auto. }
  unfold bind at 1, lift at 1 in H.
  destruct (py_get data "height" (VInt 1192)) as [hv | e].
  2: { injection H as <- <-. left. auto. }
  unfold bind at 1, lift at 1 in H.
  destruct (py_min hv (VInt 1536)) as [h | e].
  2: { injection H as <- <-. left. auto. }
  right. exists p, w, h. auto.
Qed.

Lemma store_calls_counts (name : string) (b : value) (ts : list event) :
  store_calls name b ts ->
  (count is_store_call ts <= 2)%nat /\ count is_post ts = 0%nat /\
  count is_sleep ts = 0%nat /\ count is_get ts = 0%nat /\
  total_sleep ts = 0%Z.
Proof. intros [-> | [-> | ->]]; cbn; repeat split; lia. Qed.

Lemma served_store_calls (p : value) (reply : value * Z) (ts : list event) :
  served p reply ts -> exists name b, store_calls name b ts.
Proof.
  intros [[_ ->] | [[_ ->] | [[_ H] | (name & b & _ & ->)]]].
  - exists EmptyString, VNone. now left.
  - exists EmptyString, VNone. now left.
  - exact H.
  - exists name, b. right. now right.
Qed.

(** X4. Whatever the body of the request and whatever the provider and the
    store answer, the view returns a response and raises nothing, and the
    response is one of five: 400 "A prompt is required", with no call made;
    500 "Unexpected server error" or 500 "Image generation failed", with no
    call to the store; 500 "Image upload failed"; or 200 with the prompt of
    the request, after an upload and a publication as the last two calls. *)
Theorem endpoint_always_answers (data : value) (h0 : list event) :
  exists reply t,
    generate_image_endpoint py_repr env data h0 = (Ok reply, (h0 ++ t)%list) /\
    ((reply = error_reply "A prompt is required" 400 /\ t = []) \/
     (reply = error_reply "Unexpected server error" 500 /\
      count is_store_call t = 0%nat) \/
     (reply = error_reply "Image generation failed" 500 /\
      count is_post t = 1%nat /\ count is_store_call t = 0%nat) \/
     (reply = error_reply "Image upload failed" 500 /\ count is_post t = 1%nat) \/
     (exists p name b t0,
         py_getitem data "prompt" = Ok p /\
         reply = (VDict [("success", VBool true);
                         ("prompt", p);
                         ("image_url", VStr (blob_public_url env name))], 200%Z) /\
         t = (t0 ++ [EUpload name b "image/jpeg"; EMakePublic name])%list /\
         count is_post t0 = 1%nat /\ count is_store_call t0 = 0%nat)).
Proof.
  destruct (generate_image_endpoint py_repr env data h0) as [r h'] eqn:E.
  destruct (endpoint_cases data h0 h' r E)
    as [[-> [-> | ->]] | (p & w & h & Hp & Hserve)].
  - eexists _, []. rewrite app_nil_r. split; [reflexivity |]. left. auto.
  - eexists _, []. rewrite app_nil_r. split; [reflexivity |]. right. left. auto.
  - destruct (serve_cases p w h h0 h' r Hserve)
      as (reply & tp & ts & -> & -> & (_ & _ & _ & Hpost & Hstore) & Hcase).
    exists reply,
      (EPost GENERATIONS_URL (submission_payload py_repr p w h) :: tp ++ ts)%list.
    split; [now rewrite <- !app_assoc |].
    assert (Hone : forall l, count is_post l = 0%nat ->
              count is_post
                (EPost GENERATIONS_URL (submission_payload py_repr p w h) :: tp ++ l)
              = 1%nat).
    { intros l Hl.
      change (S (count is_post (tp ++ l)) = 1%nat).
      rewrite count_app, Hpost, Hl. reflexivity. }
    assert (Hnone : count is_store_call
              (EPost GENERATIONS_URL (submission_payload py_repr p w h) :: tp ++ [])
            = 0%nat).
    { change (count is_store_call (tp ++ []) = 0%nat).
      rewrite count_app, Hstore. reflexivity. }
    destruct Hcase as [[-> ->] | [[-> ->] | [[-> (name & b & Hs)] | (name & b & -> & ->)]]].
    + right. left. auto.
    + right. right. left. repeat split; auto.
    + right. right. right. left. split; [reflexivity |].
      apply Hone. now destruct (store_calls_counts name b ts Hs) as (_ & ? & _).
    + right. right. right. right.
      exists p, name, b,
        (EPost GENERATIONS_URL (submission_payload py_repr p w h) :: tp)%list.
      repeat split; auto.
      * change (S (count is_post tp) = 1%nat). now rewrite Hpost.
Qed.

(** X5. One request costs at most one submission, 10 sleeps of 10 seconds
    (100 seconds in all), 20 GET requests and two calls to the store,
    whatever the provider and the store answer. *)
Theorem endpoint_call_budget (data : value) (h0 h' : list event)
        (r : result (value * Z)) :
  generate_image_endpoint py_repr env data h0 = (r, h') ->
  exists t,
    h' = (h0 ++ t)%list /\
    (count is_post t <= 1)%nat /\
    (count is_sleep t <= 10)%nat /\
    (total_sleep t <= 100)%Z /\
    (count is_get t <= 20)%nat /\
    (count is_store_call t <= 2)%nat.
Proof.
  intros E.
  destruct (endpoint_cases data h0 h' r E)
    as [[-> _] | (p & w & h & _ & Hserve)].
  - exists []. rewrite app_nil_r. cbn. repeat split; lia.
  - destruct (serve_cases p w h h0 h' r Hserve)
      as (reply & tp & ts & -> & -> & (Hs & Hf & Hg & Hpost & Hstore) & Hcase).
    destruct (fixed_sleeps_total tp Hf) as [Hz _].
    destruct (served_store_calls p reply ts Hcase) as (name & b & Hts).
    destruct (store_calls_counts name b ts Hts) as (Hu & Hp0 & Hs0 & Hg0 & Hz0).
    exists (EPost GENERATIONS_URL (submission_payload py_repr p w h) :: tp ++ ts)%list.
    split; [now rewrite <- !app_assoc |].
    change (count is_post (?e :: ?l)) with (S (count is_post l)).
    change (count is_sleep (?e :: ?l)) with (count is_sleep l).
    change (count is_get (?e :: ?l)) with (count is_get l).
    change (count is_store_call (?e :: ?l)) with (count is_store_call l).
    change (total_sleep (?e :: ?l)) with (total_sleep l).
    rewrite !count_app, total_sleep_app.
    repeat split; lia.
Qed.

(** X6. A body that is not a JSON object never reaches the provider.  An
    empty or zero body (null, false, 0, an empty string or list) is answered
    400; so is a list without the element "prompt" and a string without the
    substring "prompt".  A list that holds "prompt", a string that contains
    it, and a non-zero number or [true] pass or break the test of the key
    and are answered 500 "Unexpected server error". *)
Theorem endpoint_non_object_body (data : value) (h0 : list event) :
  (forall d, data <> VDict d) ->
  generate_image_endpoint py_repr env data h0 =
  (Ok (if negb (truthy data)
       then error_reply "A prompt is required" 400
       else match py_contains "prompt" data with
            | Ok false => error_reply "A prompt is required" 400
            | _ => error_reply "Unexpected server error" 500
            end),
   h0).
Proof.
  intros Hnd. unfold generate_image_endpoint, view_body, try_except.
  destruct (truthy data); cbn [negb]; [| reflexivity].
  unfold bind at 1. unfold lift at 1.
  destruct data as [| b | z | s | b | l | d];
    try reflexivity; cbn [py_contains].
  - destruct (substring_of "prompt" s); reflexivity.
  - destruct (existsb _ l); reflexivity.
  - now destruct (Hnd d).
Qed.

Lemma py_min_not_numeric (v : value) (cap : Z) :
  numeric v = false -> py_min v (VInt cap) = Raise TypeError.
Proof. destruct v; intros H; try discriminate H; reflexivity. Qed.

Lemma py_min_numeric (v : value) (cap : Z) :
  numeric v = true -> exists m, py_min v (VInt cap) = Ok m.
Proof.
  destruct v as [| b | z | | | |]; intros H; try discriminate H;
    unfold py_min, py_lt.
  - destruct (Z.ltb cap (if b then 1 else 0)); eauto.
  - destruct (Z.ltb cap z); eauto.
Qed.

(** X7. A request with a prompt whose width or height is there and is not
    a number (a string, null, a list, an object) is answered 500 "Unexpected
    server error": [min] raises, and nothing is submitted. *)
Theorem endpoint_invalid_dimension (d : list (string * value)) (p v : value)
        (h0 : list event) :
  dict_lookup "prompt" d = Some p ->
  dict_lookup "width" d = Some v \/ dict_lookup "height" d = Some v ->
  numeric v = false ->
  generate_image_endpoint py_repr env (VDict d) h0 =
  (Ok (error_reply "Unexpected server error" 500), h0).
Proof.
  intros Hp Hdim Hv.
  assert (Ht : truthy (VDict d) = true) by (destruct d; [discriminate | reflexivity]).
  unfold generate_image_endpoint, view_body, try_except.
  rewrite Ht. cbn [negb].
  unfold bind at 1. unfold lift at 1. unfold py_contains. rewrite Hp. cbn [negb].
  unfold bind at 1. unfold lift at 1. unfold py_getitem. rewrite Hp.
  unfold bind at 1. unfold lift at 1. unfold py_get at 1.
  assert (Hheight : forall wv,
    numeric wv = true -> dict_lookup "height" d = Some v ->
    (let (r, h') :=
       (width <- lift (py_min wv (VInt 900)) ;;
        h <- lift (py_get (VDict d) "height" (VInt 1192)) ;;
        height <- lift (py_min h (VInt 1536)) ;;
        generated_image <- generate_image py_repr env p width height ;;
        if negb (truthy generated_image)
        then ret (error_reply "Image generation failed" 500)
        else
          image_url <- upload_to_gcs py_repr env generated_image ;;
          if negb (truthy image_url)
          then ret (error_reply "Image upload failed" 500)
          else ret (VDict [("success", VBool true);
                           ("prompt", p);
                           ("image_url", image_url)], 200%Z)) h0 in
     match r with
     | Ok a => (Ok a, h')
     | Raise e =>
         if is_Exception e
         then ret (error_reply "Unexpected server error" 500) h'
         else (Raise e, h')
     end) = (Ok (error_reply "Unexpected server error" 500), h0)).
  { intros wv Hwv Hh.
    destruct (py_min_numeric wv 900 Hwv) as [m Hm].
    unfold bind at 1. unfold lift at 1. rewrite Hm.
    unfold bind at 1. unfold lift at 1. unfold py_get. rewrite Hh.
    unfold bind at 1. unfold lift at 1.
    rewrite (py_min_not_numeric v 1536 Hv). reflexivity. }
  destruct (dict_lookup "width" d) as [wv |] eqn:Hw.
  - destruct (numeric wv) eqn:Hwv.
    + destruct Hdim as [Hdim | Hdim]; [congruence |].
      exact (Hheight wv Hwv Hdim).
    + unfold bind at 1. unfold lift at 1.
      rewrite (py_min_not_numeric wv 900 Hwv). reflexivity.
  - destruct Hdim as [Hdim | Hdim]; [discriminate Hdim |].
    exact (Hheight (VInt 896) eq_refl Hdim).
Qed.

(** *** A turn that finds the job complete *)

Lemma poll_attempt_completed (generation_id : value) (h : list event)
      (fields descriptor : list (string * value)) :
  completed generation_id h fields descriptor ->
  let h2 := (h ++ polls (status_url py_repr generation_id) 1)%list in
  let url := descriptor_url descriptor in
  poll_attempt py_repr env generation_id h =
  if descriptor_unsafe descriptor then (Ok (Some VNone), h2)
  else if negb (truthy url) then (Ok (Some VNone), h2)
  else match http_get env h2 url with
       | Some image_response =>
           if is_error_status image_response
           then (Ok None, (h2 ++ [EGet url])%list)
           else (Ok (Some (VDict (dict_set "image_bytes"
                                           (VBytes (content image_response))
                                           fields))),
                 (h2 ++ [EGet url])%list)
       | None => (Ok None, (h2 ++ [EGet url])%list)
       end.
Proof.
  intros (Hdoc & Hst & Hdesc). cbv zeta. cbn [polls].
  unfold status_answer in Hdoc.
  unfold poll_attempt, try_except.
  unfold bind at 1; unfold sleep at 1.
  unfold bind at 1; unfold session_get at 1.
  rewrite <- !app_assoc. cbn [app].
  destruct (http_get env _ _) as [resp |]; [| discriminate Hdoc].
  unfold status_document in Hdoc.
  unfold bind at 1; unfold raise_for_status.
  destruct (is_error_status resp); [discriminate Hdoc |].
  unfold ret at 1. unfold bind at 1; unfold lift at 1; unfold py_get at 1.
  destruct (json_body resp) as [| | | | | | body]; try discriminate Hdoc.
  destruct (dict_lookup "generations_by_pk" body) as [[| | | | | | fields'] |];
    try discriminate Hdoc; injection Hdoc as Hdoc; subst fields;
    [| cbn in Hst; discriminate Hst].
  unfold bind at 1; unfold lift at 1; unfold py_get at 1. rewrite Hst.
  cbn [py_eq_str String.eqb Ascii.eqb Bool.eqb].
  unfold bind at 1; unfold lift at 1; unfold py_get at 1.
  unfold first_descriptor in Hdesc.
  assert (Hfirst :
    py_index0 (match dict_lookup "generated_images" fields' with
               | Some v => v
               | None => VList [VDict []]
               end) = Ok (VDict descriptor)).
  { destruct (dict_lookup "generated_images" fields') as [[| | | | | l |] |];
      try discriminate Hdesc.
    - destruct l as [| [| | | | | | d0] l']; try discriminate Hdesc.
      injection Hdesc as ->. reflexivity.
    - injection Hdesc as <-. reflexivity. }
  destruct (dict_lookup "generated_images" fields') as [images |];
    unfold bind at 1; unfold lift at 1; rewrite Hfirst;
    unfold bind at 1; unfold lift at 1; unfold py_get at 1;
    unfold descriptor_unsafe, descriptor_url.
  all: destruct (dict_lookup "nsfw" descriptor) as [flag |];
    [destruct (truthy flag); [reflexivity |] | cbn [truthy]].
  all: unfold bind at 1; unfold lift at 1; unfold py_get at 1;
    destruct (dict_lookup "url" descriptor) as [u |];
    [destruct (truthy u); cbn [negb]; [| reflexivity] | reflexivity].
  all: unfold bind at 1; unfold session_get at 1;
    destruct (http_get env _ u) as [iresp |];
    [unfold bind at 1; unfold raise_for_status;
     destruct (is_error_status iresp) |];
    cbn; rewrite <- ?app_assoc; reflexivity.
Qed.

Lemma polls_succ (url : string) (k : nat) :
  (polls url k ++ polls url 1)%list = polls url (S k).
Proof. rewrite <- polls_app. f_equal. lia. Qed.

(** Polling passes over [k] pending turns and runs the next one. *)
Lemma poll_status_turn (generation_id : value) (h : list event) (k : nat) :
  (k < 10)%nat ->
  pending_turns generation_id h k ->
  _poll_generation_status py_repr env generation_id h =
  (r <- poll_attempt py_repr env generation_id ;;
   match r with
   | Some v => ret v
   | None => poll_loop py_repr env generation_id (9 - k)
   end) (h ++ polls (status_url py_repr generation_id) k)%list.
Proof.
  intros Hk Hpend. unfold _poll_generation_status.
  replace MAX_GENERATION_ATTEMPTS with (k + S (9 - k))%nat
    by (unfold MAX_GENERATION_ATTEMPTS; lia).
  rewrite (poll_loop_skip generation_id k (S (9 - k)) h Hpend).
  reflexivity.
Qed.

(** X8. When a status query reports COMPLETE and the first image is not
    flagged but has no URL (the key [url] absent, null or empty, or no
    [generated_images] at all), polling stops at that turn with no result:
    nothing is fetched and no further turn is made. *)
Theorem polling_aborts_without_url (generation_id : value) (h : list event)
        (k : nat) (fields descriptor : list (string * value)) :
  (k < 10)%nat ->
  pending_turns generation_id h k ->
  completed generation_id
            (h ++ polls (status_url py_repr generation_id) k)%list
            fields descriptor ->
  descriptor_unsafe descriptor = false ->
  truthy (descriptor_url descriptor) = false ->
  _poll_generation_status py_repr env generation_id h =
  (Ok VNone, (h ++ polls (status_url py_repr generation_id) (S k))%list).
Proof.
  intros Hk Hpend Hdone Hsafe Hurl.
  rewrite (poll_status_turn generation_id h k Hk Hpend).
  unfold bind at 1.
  rewrite (poll_attempt_completed generation_id _ fields descriptor Hdone).
  cbv zeta. rewrite Hsafe, Hurl. cbn [negb].
  unfold ret. now rewrite <- app_assoc, polls_succ.
Qed.

(** X9. When the job is complete and the fetch of the image fails, the
    turn is used up and polling goes on with the turns that are left: the
    status is queried again. *)
Theorem polling_retries_after_failed_fetch (generation_id : value)
        (h : list event) (n : nat) (fields descriptor : list (string * value)) :
  completed generation_id h fields descriptor ->
  descriptor_unsafe descriptor = false ->
  truthy (descriptor_url descriptor) = true ->
  fetch_fails
    (http_get env (h ++ polls (status_url py_repr generation_id) 1)%list
              (descriptor_url descriptor)) ->
  poll_loop py_repr env generation_id (S n) h =
  poll_loop py_repr env generation_id n
            (h ++ polls (status_url py_repr generation_id) 1 ++
               [EGet (descriptor_url descriptor)])%list.
Proof.
  intros Hdone Hsafe Hurl Hfail.
  cbn [poll_loop]. unfold bind at 1.
  rewrite (poll_attempt_completed generation_id _ fields descriptor Hdone).
  cbv zeta. rewrite Hsafe, Hurl. cbn [negb].
  unfold fetch_fails in Hfail.
  destruct (http_get env _ (descriptor_url descriptor)) as [iresp |].
  - rewrite Hfail. now rewrite <- app_assoc.
  - now rewrite <- app_assoc.
Qed.

Lemma polling_fetches (generation_id : value) (h : list event) (k : nat)
      (fields descriptor : list (string * value)) (image_response : response) :
  (k < 10)%nat ->
  pending_turns generation_id h k ->
  completed generation_id
            (h ++ polls (status_url py_repr generation_id) k)%list
            fields descriptor ->
  descriptor_unsafe descriptor = false ->
  truthy (descriptor_url descriptor) = true ->
  http_get env (h ++ polls (status_url py_repr generation_id) (S k))%list
           (descriptor_url descriptor) = Some image_response ->
  is_error_status image_response = false ->
  _poll_generation_status py_repr env generation_id h =
  (Ok (VDict (dict_set "image_bytes" (VBytes (content image_response)) fields)),
   (h ++ polls (status_url py_repr generation_id) (S k) ++
      [EGet (descriptor_url descriptor)])%list).
Proof.
  intros Hk Hpend Hdone Hsafe Hurl Hget Hok.
  rewrite (poll_status_turn generation_id h k Hk Hpend).
  unfold bind at 1.
  rewrite (poll_attempt_completed generation_id _ fields descriptor Hdone).
  cbv zeta. rewrite Hsafe, Hurl. cbn [negb].
  rewrite <- app_assoc, polls_succ, Hget, Hok.
  unfold ret. now rewrite <- app_assoc.
Qed.

(** X10. When a status query reports COMPLETE with a first image that is
    not flagged and has a URL, and the fetch of that URL works, polling
    returns the status document of that answer with the body of the fetched
    response under [image_bytes] and every other field as the provider sent
    it; the fetch is the last call. *)
Theorem polling_returns_fetched_image (generation_id : value) (h : list event)
        (k : nat) (fields descriptor : list (string * value))
        (image_response : response) :
  (k < 10)%nat ->
  pending_turns generation_id h k ->
  completed generation_id
            (h ++ polls (status_url py_repr generation_id) k)%list
            fields descriptor ->
  descriptor_unsafe descriptor = false ->
  truthy (descriptor_url descriptor) = true ->
  http_get env (h ++ polls (status_url py_repr generation_id) (S k))%list
           (descriptor_url descriptor) = Some image_response ->
  is_error_status image_response = false ->
  exists result,
    _poll_generation_status py_repr env generation_id h =
    (Ok (VDict result),
     (h ++ polls (status_url py_repr generation_id) (S k) ++
        [EGet (descriptor_url descriptor)])%list) /\
    dict_lookup "image_bytes" result = Some (VBytes (content image_response)) /\
    forall key, key <> "image_bytes" ->
      dict_lookup key result = dict_lookup key fields.
Proof.
  intros Hk Hpend Hdone Hsafe Hurl Hget Hok.
  eexists. split.
  - exact (polling_fetches generation_id h k fields descriptor image_response
             Hk Hpend Hdone Hsafe Hurl Hget Hok).
  - split.
    + apply dict_lookup_set_same.
    + intros key Hkey. now apply dict_lookup_set_other.
Qed.

(** *** From the request to the answer *)

Lemma dict_set_truthy (k : string) (v : value) (d : list (string * value)) :
  truthy (VDict (dict_set k v d)) = true.
Proof.
  destruct d as [| [k' v'] d]; cbn [dict_set]; [reflexivity |].
  destruct (String.eqb k k'); reflexivity.
Qed.

Lemma endpoint_reaches_upload (d : list (string * value)) (p generation_id : value)
      (w h : Z) (h0 : list event) (k : nat)
      (fields descriptor : list (string * value)) (image_response : response) :
  reaches_fetch d p generation_id w h h0 k fields descriptor image_response ->
  generate_image_endpoint py_repr env (VDict d) h0 =
  try_except
    (image_url <-
       upload_to_gcs py_repr env
         (VDict (dict_set "image_bytes" (VBytes (content image_response)) fields)) ;;
     if negb (truthy image_url)
     then ret (error_reply "Image upload failed" 500)
     else ret (VDict [("success", VBool true);
                      ("prompt", p);
                      ("image_url", image_url)], 200%Z))
    is_Exception
    (fun _ => ret (error_reply "Unexpected server error" 500))
    (fetched_history p generation_id w h h0 k (descriptor_url descriptor)).
Proof.
  intros (Hp & Hw & Hh & Hsub & Hk & Hpend & Hdone & Hsafe & Hurl & Hget & Hok).
  rewrite (endpoint_valid_request d p w h h0 Hp Hw Hh).
  unfold serve, try_except at 1. unfold bind at 1.
  rewrite (generate_image_polls p _ _ generation_id h0 Hsub).
  unfold try_except at 1.
  fold (submission p w h).
  rewrite (polling_fetches generation_id _ k fields descriptor image_response
             Hk Hpend Hdone Hsafe Hurl Hget Hok).
  rewrite dict_set_truthy. cbn [negb].
  unfold try_except, fetched_history.
  rewrite <- app_assoc. reflexivity.
Qed.

(** X11. A request that goes through to the fetch of the image, with a
    non-empty image, a store that takes the object and publishes it, and a
    non-empty public URL, is answered 200 with the prompt as it came and that
    URL; the calls are the submission, the turns of polling, the fetch, the
    upload of the fetched bytes as image/jpeg and the publication, in this
    order and nothing else. *)
Theorem endpoint_full_success (d : list (string * value)) (p generation_id : value)
        (w h : Z) (h0 : list event) (k : nat)
        (fields descriptor : list (string * value)) (image_response : response) :
  reaches_fetch d p generation_id w h h0 k fields descriptor image_response ->
  let h3 := fetched_history p generation_id w h h0 k (descriptor_url descriptor) in
  let name := object_name h3 in
  let upload := EUpload name (VBytes (content image_response)) "image/jpeg" in
  content image_response <> [] ->
  blob_upload env h3 name (VBytes (content image_response)) "image/jpeg" = true ->
  blob_make_public env (h3 ++ [upload])%list name = true ->
  blob_public_url env name <> EmptyString ->
  generate_image_endpoint py_repr env (VDict d) h0 =
  (Ok (VDict [("success", VBool true);
              ("prompt", p);
              ("image_url", VStr (blob_public_url env name))], 200%Z),
   (h3 ++ [upload; EMakePublic name])%list).
Proof.
  intros Hreach h3 name upload Hbytes Hup Hpub Hurl.
  rewrite (endpoint_reaches_upload d p generation_id w h h0 k
             fields descriptor image_response Hreach).
  fold h3. unfold try_except. unfold bind at 1.
  destruct (upload_to_gcs_spec
              (VDict (dict_set "image_bytes" (VBytes (content image_response)) fields))
              h3) as (u & h' & E & Hspec).
  rewrite E.
  assert (Hs : upload_succeeds
                 (VDict (dict_set "image_bytes" (VBytes (content image_response))
                                  fields)) h3 = true).
  { unfold upload_succeeds, py_get. rewrite dict_lookup_set_same.
    fold name. fold upload. rewrite Hup, Hpub.
    destruct (content image_response); [congruence | reflexivity]. }
  rewrite Hs in Hspec. destruct Hspec as (b & Hb & -> & ->).
  unfold py_get in Hb. rewrite dict_lookup_set_same in Hb. injection Hb as <-.
  fold name.
  assert (Ht : truthy (VStr (blob_public_url env name)) = true).
  { cbn [truthy]. apply negb_true_iff, String.eqb_neq. exact Hurl. }
  rewrite Ht. reflexivity.
Qed.

(** X12. When the request goes through to the fetch and the fetched body
    is empty, [upload_to_gcs] finds no bytes: the view answers 500 "Image
    upload failed" and the store is not called. *)
Theorem endpoint_empty_image (d : list (string * value)) (p generation_id : value)
        (w h : Z) (h0 : list event) (k : nat)
        (fields descriptor : list (string * value)) (image_response : response) :
  reaches_fetch d p generation_id w h h0 k fields descriptor image_response ->
  content image_response = [] ->
  generate_image_endpoint py_repr env (VDict d) h0 =
  (Ok (error_reply "Image upload failed" 500),
   fetched_history p generation_id w h h0 k (descriptor_url descriptor)).
Proof.
  intros Hreach Hempty.
  rewrite (endpoint_reaches_upload d p generation_id w h h0 k
             fields descriptor image_response Hreach).
  unfold try_except. unfold bind at 1.
  unfold upload_to_gcs, try_except.
  unfold bind at 1. unfold lift at 1. unfold py_get.
  rewrite dict_lookup_set_same, Hempty. reflexivity.
Qed.

End Properties.

(** ** When two file names collide *)

Lemma append_inj_l (s a b : string) : s ++ a = s ++ b -> a = b.
Proof.
  induction s as [| c s IH]; cbn; intros H; [exact H |].
  injection H as H. auto.
Qed.

Lemma append_inj_same_length (a b x y : string) :
  String.length a = String.length b ->
  a ++ x = b ++ y -> a = b /\ x = y.
Proof.
  revert b. induction a as [| c a IH]; intros [| c' b] Hlen H;
    try discriminate Hlen.
  - auto.
  - cbn in H. injection H as -> H. injection Hlen as Hlen.
    destruct (IH b Hlen H) as [-> ->]. auto.
Qed.

Lemma append_assoc (a b c : string) : (a ++ b) ++ c = a ++ b ++ c.
Proof. induction a as [| x a IH]; cbn; [reflexivity | now rewrite IH]. Qed.

Lemma hex_fixed_acc (k : nat) :
  forall n acc, hex_fixed k n acc = hex_fixed k n EmptyString ++ acc.
Proof.
  induction k as [| k IH]; intros n acc; cbn [hex_fixed]; [reflexivity |].
  rewrite IH. rewrite (IH _ (String _ EmptyString)).
  now rewrite append_assoc.
Qed.

Lemma hex_fixed_split (a b : nat) :
  forall n acc,
    hex_fixed (a + b) n acc =
    hex_fixed a (n / 16 ^ N.of_nat b) (hex_fixed b n acc).
Proof.
  induction b as [| b IH]; intros n acc.
  - rewrite Nat.add_0_r. cbn [hex_fixed N.of_nat]. now rewrite N.pow_0_r, N.div_1_r.
  - rewrite Nat.add_succ_r. cbn [hex_fixed]. rewrite IH.
    rewrite Nat2N.inj_succ, N.pow_succ_r', N.Div0.div_div. reflexivity.
Qed.

Lemma substring_0_append (x y : string) :
  substring 0 (String.length x) (x ++ y) = x.
Proof. induction x as [| c x IH]; cbn; [now destruct y | now rewrite IH]. Qed.

(** The 8 characters kept of a UUID print its leading 32 bits. *)
Lemma uuid_prefix_leading_bits (u : N) :
  substring 0 8 (uuid_hex u) =
  hex_fixed 8 ((u mod 2 ^ 128) / 2 ^ 96) EmptyString.
Proof.
  unfold uuid_hex.
  change 32%nat with (8 + 24)%nat. rewrite hex_fixed_split.
  rewrite hex_fixed_acc.
  change (16 ^ N.of_nat 24)%N with (2 ^ 96)%N.
  set (x := hex_fixed 8 _ EmptyString).
  replace 8%nat with (String.length x) at 1
    by (unfold x; now rewrite hex_fixed_length).
  apply substring_0_append.
Qed.

Lemma hex_char_inj (a b : N) :
  (a < 16)%N -> (b < 16)%N -> hex_char a = hex_char b -> a = b.
Proof.
  intros Ha Hb. unfold hex_char.
  rewrite <- (N2Nat.id a), <- (N2Nat.id b).
  assert (Ha' : (N.to_nat a < 16)%nat) by lia.
  assert (Hb' : (N.to_nat b < 16)%nat) by lia.
  rewrite !Nat2N.id.
  revert Ha' Hb'. generalize (N.to_nat a) as i, (N.to_nat b) as j.
  intros i j Hi Hj.
  do 16 (destruct i as [| i]; [do 16 (destruct j as [| j];
         [first [reflexivity | discriminate] |]); lia |]).
  lia.
Qed.

Lemma hex_fixed_inj (k : nat) :
  forall n m,
    hex_fixed k n EmptyString = hex_fixed k m EmptyString ->
    (n mod 16 ^ N.of_nat k = m mod 16 ^ N.of_nat k)%N.
Proof.
  induction k as [| k IH]; intros n m H.
  - cbn. now rewrite !N.mod_1_r.
  - cbn [hex_fixed] in H.
    rewrite (hex_fixed_acc k (n / 16)), (hex_fixed_acc k (m / 16)) in H.
    apply append_inj_same_length in H; [| now rewrite !hex_fixed_length].
    destruct H as [Hhi Hlo]. injection Hlo as Hlo.
    apply hex_char_inj in Hlo; try (apply N.mod_lt; discriminate).
    apply IH in Hhi.
    rewrite Nat2N.inj_succ, N.pow_succ_r'.
    rewrite !N.Div0.mod_mul_r. rewrite Hhi, Hlo. reflexivity.
Qed.

(** X13. Two object names built under the same folder from valid dates
    are the same exactly when the two timestamps agree to the second and the
    two UUIDs agree on their leading 32 bits; the microseconds and the other
    96 bits play no part. *)
Theorem object_names_collide_iff (folder : string) (dt1 dt2 : datetime) (u1 u2 : N) :
  datetime_valid dt1 = true ->
  datetime_valid dt2 = true ->
  folder ++ strftime dt1 ++ "_" ++ substring 0 8 (uuid_hex u1) ++ ".jpg" =
  folder ++ strftime dt2 ++ "_" ++ substring 0 8 (uuid_hex u2) ++ ".jpg" <->
  strftime dt1 = strftime dt2 /\
  ((u1 mod 2 ^ 128) / 2 ^ 96 = (u2 mod 2 ^ 128) / 2 ^ 96)%N.
Proof.
  intros Hv1 Hv2.
  assert (Hsmall : forall u, ((u mod 2 ^ 128) / 2 ^ 96 < 16 ^ N.of_nat 8)%N).
  { intros u. change (16 ^ N.of_nat 8)%N with (2 ^ 32)%N.
    apply N.Div0.div_lt_upper_bound.
    change (2 ^ 96 * 2 ^ 32)%N with (2 ^ 128)%N.
    apply N.mod_lt. discriminate. }
  split.
  - intros H. apply append_inj_l in H.
    apply append_inj_same_length in H;
      [| now rewrite !strftime_length].
    destruct H as [Hts H]. split; [exact Hts |].
    apply (append_inj_l "_") in H.
    apply append_inj_same_length in H.
    2: { now rewrite !(proj1 (uuid_prefix_form _)). }
    destruct H as [H _]. rewrite !uuid_prefix_leading_bits in H.
    apply hex_fixed_inj in H.
    rewrite (N.mod_small _ _ (Hsmall u1)), (N.mod_small _ _ (Hsmall u2)) in H.
    exact H.
  - intros [Hts Hu]. rewrite !uuid_prefix_leading_bits, Hts, Hu. reflexivity.
Qed.

(** ** The properties on the scenarios *)

Lemma endpoint_polls_ten_times_witness :
  exists calls,
    calls = submission no_repr (VStr "a red barn") 5000 1192 ::
            polls (status_url no_repr (VStr "job-1")) 10 /\
    _poll_generation_status no_repr env_pending (VStr "job-1")
      ([] ++ [submission no_repr (VStr "a red barn") 5000 1192])%list =
    (Ok VNone, ([] ++ calls)%list) /\
    generate_image_endpoint no_repr env_pending sample_request [] =
    (Ok (VDict [("error", VStr "Image generation failed")], 500%Z),
     ([] ++ calls)%list) /\
    count_gets calls = 10%nat /\ count_posts calls = 1%nat /\
    forall e, In e calls ->
      e = submission no_repr (VStr "a red barn") 5000 1192 \/ e = ESleep 10 \/
      e = EGet (VStr (status_url no_repr (VStr "job-1"))).
Proof.
  apply (endpoint_polls_ten_times no_repr env_pending
           [("prompt", VStr "a red barn"); ("width", VInt 5000)]
           (VStr "a red barn") (VStr "job-1") 5000 1192 []).
  - reflexivity.
  - reflexivity.
  - reflexivity.
  - eexists _, _. repeat split; reflexivity.
  - intros k Hk. reflexivity.
Defined.

Lemma endpoint_unsafe_aborts_witness :
  _poll_generation_status no_repr env_unsafe (VStr "job-1")
    ([] ++ [submission no_repr (VStr "a red barn") 5000 1192])%list =
  (Ok VNone,
   ([] ++ submission no_repr (VStr "a red barn") 5000 1192 ::
          polls (status_url no_repr (VStr "job-1")) 3)%list) /\
  generate_image_endpoint no_repr env_unsafe sample_request [] =
  (Ok (VDict [("error", VStr "Image generation failed")], 500%Z),
   ([] ++ submission no_repr (VStr "a red barn") 5000 1192 ::
          polls (status_url no_repr (VStr "job-1")) 3)%list).
Proof.
  apply (endpoint_unsafe_aborts no_repr env_unsafe
           [("prompt", VStr "a red barn"); ("width", VInt 5000)]
           (VStr "a red barn") (VStr "job-1") 5000 1192 [] 2
           [("nsfw", VBool true); ("url", VStr "https://cdn.example/a.jpg")]
           [VDict [("nsfw", VBool false); ("url", VStr "https://cdn.example/b.jpg")]]
           (VBool true)).
  - reflexivity.
  - reflexivity.
  - reflexivity.
  - eexists _, _. repeat split; reflexivity.
  - lia.
  - intros i Hi. destruct i as [| [| i]]; [reflexivity | reflexivity | lia].
  - eexists. repeat split; reflexivity.
  - reflexivity.
  - reflexivity.
Defined.

Lemma endpoint_clamps_dimensions_witness :
  exists fields reply rest,
    generate_image_endpoint no_repr env_pending sample_request [] =
    (Ok reply, ([] ++ EPost GENERATIONS_URL (VDict fields) :: rest)%list) /\
    dict_lookup "width" fields = Some (VInt (Z.min 5000 900)) /\
    dict_lookup "height" fields = Some (VInt (Z.min 1192 1536)) /\
    (Z.min 5000 900 <= 900)%Z /\ (Z.min 1192 1536 <= 1536)%Z /\
    snd reply <> 400%Z.
Proof.
  apply (endpoint_clamps_dimensions no_repr env_pending
           [("prompt", VStr "a red barn"); ("width", VInt 5000)]
           (VStr "a red barn") 5000 1192 []); reflexivity.
Defined.

Lemma polling_result_bytes_iff_witness :
  exists v h',
    _poll_generation_status no_repr env_success (VStr "job-1") [] = (Ok v, h') /\
    v <> VNone /\
    (result_has_bytes v = true <->
     result_is_complete v = true /\ result_nsfw v = Some false) /\
    result_has_bytes v = true.
Proof.
  eexists _, _.
  assert (H : _poll_generation_status no_repr env_success (VStr "job-1") [] =
              (Ok (VDict [("status", VStr "COMPLETE");
                          ("generated_images",
                           VList [VDict [("nsfw", VBool false);
                                         ("url", VStr "https://cdn.example/a.jpg")]]);
                          ("image_bytes", VBytes sample_bytes)]),
               [ESleep 10;
                EGet (VStr "https://cloud.leonardo.ai/api/rest/v1/generations/job-1");
                EGet (VStr "https://cdn.example/a.jpg")]))
    by (vm_compute; reflexivity).
  split; [exact H |].
  split; [discriminate |].
  apply (polling_result_bytes_iff no_repr env_success (VStr "job-1") [] _ _ H).
  discriminate.
Defined.

Lemma endpoint_missing_prompt_witness :
  endpoint_on_request no_repr env_success
                      (JsonRequest (VDict [("width", VInt 512)])) [] =
  (Ok (VDict [("error", VStr "A prompt is required")], 400%Z), []) /\
  generate_image_endpoint no_repr env_success (VDict [("width", VInt 512)]) [] =
  (Ok (VDict [("error", VStr "A prompt is required")], 400%Z), []).
Proof.
  apply (endpoint_missing_prompt no_repr env_success (VDict [("width", VInt 512)]) []).
  right. exists [("width", VInt 512)]. split; reflexivity.
Defined.

Lemma endpoint_success_witness :
  generate_image_endpoint no_repr env_success sample_request [] =
  (Ok success_reply, success_history) /\
  exists d p w h bytes rest,
    let h1 :=
      ([] ++ EPost GENERATIONS_URL (submission_payload no_repr p w h) :: rest)%list in
    let timestamp := strftime (datetime_now env_success h1) in
    let suffix := substring 0 8 (uuid_hex (uuid4 env_success h1)) in
    let name :=
      py_str no_repr (folder_name env_success) ++ timestamp ++ "_" ++ suffix ++ ".jpg" in
    sample_request = VDict d /\ dict_lookup "prompt" d = Some p /\
    dict_lookup "prompt"
      (match submission_payload no_repr p w h with VDict f => f | _ => [] end) =
    Some (VStr (py_str no_repr p ++ ", " ++ PROMPT_SUFFIX)) /\
    success_reply =
    (VDict [("success", VBool true);
            ("prompt", p);
            ("image_url", VStr (blob_public_url env_success name))], 200%Z) /\
    success_history =
    (h1 ++ [EUpload name (VBytes bytes) "image/jpeg"; EMakePublic name])%list /\
    String.length suffix = 8%nat /\
    all_chars is_hex_char suffix = true /\
    (datetime_valid (datetime_now env_success h1) = true ->
     String.length timestamp = 15%nat).
Proof.
  assert (H : generate_image_endpoint no_repr env_success sample_request [] =
              (Ok success_reply, success_history))
    by (vm_compute; reflexivity).
  split; [exact H |].
  apply (endpoint_success no_repr env_success sample_request
                          success_reply [] success_history H).
  reflexivity.
Defined.

Lemma failures_do_not_escape_witness :
  exists h2,
    generate_image_endpoint no_repr env_store_down sample_request [] =
    (Ok (VDict [("error", VStr "Image upload failed")], 500%Z), h2).
Proof.
  destruct (failures_do_not_escape no_repr env_store_down
              [("prompt", VStr "a red barn"); ("width", VInt 5000)]
              (VStr "a red barn") 5000 1192 [] eq_refl eq_refl eq_refl)
    as (_ & _ & _ & Hmap).
  eexists.
  apply (Hmap
           (VDict [("status", VStr "COMPLETE");
                   ("generated_images",
                    VList [VDict [("nsfw", VBool false);
                                  ("url", VStr "https://cdn.example/a.jpg")]]);
                   ("image_bytes", VBytes sample_bytes)])
           [EPost GENERATIONS_URL
                  (submission_payload no_repr (VStr "a red barn") (VInt 900) (VInt 1192));
            ESleep 10;
            EGet (VStr "https://cloud.leonardo.ai/api/rest/v1/generations/job-1");
            EGet (VStr "https://cdn.example/a.jpg")]
           VNone).
  - vm_compute. reflexivity.
  - reflexivity.
  - vm_compute. reflexivity.
  - reflexivity.
Defined.

(** C7, as first stated, fails: the view is not handed only a result or
    [None].  On the provider of [env_empty_images], [generate_image] raises
    IndexError. *)
Lemma generate_image_raises_index_error :
  generate_image no_repr env_empty_images (VStr "a red barn") (VInt 900) (VInt 1192) [] =
  (Raise IndexError,
   [EPost GENERATIONS_URL
          (submission_payload no_repr (VStr "a red barn") (VInt 900) (VInt 1192));
    ESleep 10;
    EGet (VStr "https://cloud.leonardo.ai/api/rest/v1/generations/job-1")]) /\
  ~ (exists v hist,
        generate_image no_repr env_empty_images
                       (VStr "a red barn") (VInt 900) (VInt 1192) [] = (Ok v, hist)).
Proof.
  assert (H : generate_image no_repr env_empty_images
                (VStr "a red barn") (VInt 900) (VInt 1192) [] =
              (Raise IndexError,
               [EPost GENERATIONS_URL
                      (submission_payload no_repr (VStr "a red barn")
                                          (VInt 900) (VInt 1192));
                ESleep 10;
                EGet (VStr "https://cloud.leonardo.ai/api/rest/v1/generations/job-1")]))
    by (vm_compute; reflexivity).
  split; [exact H |].
  intros (v & hist & Hok). rewrite H in Hok. discriminate Hok.
Qed.

Lemma generate_image_without_job_witness :
  generate_image no_repr env_no_job (VStr "a red barn") (VInt 900) (VInt 1192) [] =
  (Ok VNone,
   ([] ++ [EPost GENERATIONS_URL
                 (submission_payload no_repr (VStr "a red barn")
                                     (VInt 900) (VInt 1192))])%list) /\
  generate_image no_repr env_unreachable (VStr "a red barn") (VInt 900) (VInt 1192) [] =
  (Ok VNone,
   ([] ++ [EPost GENERATIONS_URL
                 (submission_payload no_repr (VStr "a red barn")
                                     (VInt 900) (VInt 1192))])%list).
Proof.
  split.
  - apply (generate_image_without_job no_repr env_no_job
             (VStr "a red barn") (VInt 900) (VInt 1192) []).
    left. eexists _, _. repeat split; reflexivity.
  - apply (generate_image_without_job no_repr env_unreachable
             (VStr "a red barn") (VInt 900) (VInt 1192) []).
    right. exact I.
Defined.

Lemma endpoint_empty_images_unexpected_witness :
  exists h',
    is_RequestException IndexError = false /\
    _poll_generation_status no_repr env_empty_images (VStr "job-1")
      ([] ++ [submission no_repr (VStr "a red barn") 5000 1192])%list =
    (Raise IndexError, h') /\
    generate_image no_repr env_empty_images (VStr "a red barn")
                   (VInt (Z.min 5000 900)) (VInt (Z.min 1192 1536)) [] =
    (Raise IndexError, h') /\
    generate_image_endpoint no_repr env_empty_images sample_request [] =
    (Ok (VDict [("error", VStr "Unexpected server error")], 500%Z), h').
Proof.
  apply (endpoint_empty_images_unexpected no_repr env_empty_images
           [("prompt", VStr "a red barn"); ("width", VInt 5000)]
           (VStr "a red barn") (VStr "job-1") 5000 1192 [] 0).
  - reflexivity.
  - reflexivity.
  - reflexivity.
  - eexists _, _. repeat split; reflexivity.
  - lia.
  - intros i Hi. lia.
  - eexists. repeat split; reflexivity.
Defined.




Lemma polling_stays_within_budget_witness :
  exists r h',
    _poll_generation_status no_repr env_fetch_down (VStr "job-1") [] = (r, h') /\
    exists t,
      h' = ([] ++ t)%list /\
      (count is_sleep t <= 10)%nat /\
      (total_sleep t <= 100)%Z /\
      (forall s, In (ESleep s) t -> s = 10%Z) /\
      (count is_get t <= 20)%nat /\
      count is_post t = 0%nat /\
      count is_store_call t = 0%nat.
Proof.
  eexists _, _. split; [vm_compute; reflexivity |].
  eapply (polling_stays_within_budget no_repr env_fetch_down (VStr "job-1") []).
  vm_compute. reflexivity.
Defined.

Lemma generate_image_submits_once_witness :
  exists r h',
    generate_image no_repr env_unsafe (VStr "a red barn") (VInt 900) (VInt 1192) []
    = (r, h') /\
    exists t,
      h' = ([] ++ EPost GENERATIONS_URL
                        (submission_payload no_repr (VStr "a red barn")
                                            (VInt 900) (VInt 1192)) :: t)%list /\
      count is_post
            (EPost GENERATIONS_URL
                   (submission_payload no_repr (VStr "a red barn")
                                       (VInt 900) (VInt 1192)) :: t) = 1%nat /\
      (count is_sleep t <= 10)%nat /\
      (total_sleep t <= 100)%Z /\
      (count is_get t <= 20)%nat /\
      count is_store_call t = 0%nat.
Proof.
  eexists _, _. split; [vm_compute; reflexivity |].
  eapply (generate_image_submits_once no_repr env_unsafe
           (VStr "a red barn") (VInt 900) (VInt 1192) []).
  vm_compute. reflexivity.
Defined.

Lemma upload_to_gcs_calls_witness :
  exists r h',
    upload_to_gcs no_repr env_success
                  (VDict [("image_bytes", VBytes sample_bytes)]) [] = (r, h') /\
    exists u t,
      r = Ok u /\ h' = ([] ++ t)%list /\
      t = [EUpload "images/20240307_090542_01234567.jpg"
                   (VBytes sample_bytes) "image/jpeg";
           EMakePublic "images/20240307_090542_01234567.jpg"] /\
      u = VStr "https://storage.googleapis.com/bucket/images/20240307_090542_01234567.jpg".
Proof.
  eexists _, _. split; [vm_compute; reflexivity |].
  destruct (upload_to_gcs_calls no_repr env_success
              (VDict [("image_bytes", VBytes sample_bytes)]) [] _ _ eq_refl)
    as (u & t & Hr & Ht & Hcase).
  exists u, t. split; [exact Hr |]. split; [exact Ht |].
  exact Hcase.
Defined.

Lemma endpoint_call_budget_witness :
  exists t,
    success_history = ([] ++ t)%list /\
    (count is_post t <= 1)%nat /\
    (count is_sleep t <= 10)%nat /\
    (total_sleep t <= 100)%Z /\
    (count is_get t <= 20)%nat /\
    (count is_store_call t <= 2)%nat.
Proof.
  apply (endpoint_call_budget no_repr env_success sample_request []
                              success_history (Ok success_reply)).
  vm_compute. reflexivity.
Defined.

Lemma endpoint_non_object_body_witness :
  generate_image_endpoint no_repr env_success (VList [VStr "prompt"]) [] =
  (Ok (error_reply "Unexpected server error" 500), []) /\
  generate_image_endpoint no_repr env_success (VStr "a red barn") [] =
  (Ok (error_reply "A prompt is required" 400), []).
Proof.
  split.
  - apply (endpoint_non_object_body no_repr env_success (VList [VStr "prompt"]) []).
    intros d. discriminate.
  - apply (endpoint_non_object_body no_repr env_success (VStr "a red barn") []).
    intros d. discriminate.
Defined.

Lemma endpoint_invalid_dimension_witness :
  generate_image_endpoint no_repr env_success
    (VDict [("prompt", VStr "a red barn"); ("height", VStr "tall")]) [] =
  (Ok (error_reply "Unexpected server error" 500), []).
Proof.
  apply (endpoint_invalid_dimension no_repr env_success
           [("prompt", VStr "a red barn"); ("height", VStr "tall")]
           (VStr "a red barn") (VStr "tall") []).
  - reflexivity.
  - right. reflexivity.
  - reflexivity.
Defined.

Lemma polling_aborts_without_url_witness :
  _poll_generation_status no_repr env_no_url (VStr "job-1") [] =
  (Ok VNone, ([] ++ polls (status_url no_repr (VStr "job-1")) 1)%list).
Proof.
  apply (polling_aborts_without_url no_repr env_no_url (VStr "job-1") [] 0
           [("status", VStr "COMPLETE");
            ("generated_images", VList [VDict [("nsfw", VBool false)]])]
           [("nsfw", VBool false)]).
  - lia.
  - intros i Hi. lia.
  - repeat split; reflexivity.
  - reflexivity.
  - reflexivity.
Defined.

Lemma polling_retries_after_failed_fetch_witness :
  poll_loop no_repr env_fetch_down (VStr "job-1") 3 [] =
  poll_loop no_repr env_fetch_down (VStr "job-1") 2
            ([] ++ polls (status_url no_repr (VStr "job-1")) 1 ++
                [EGet (descriptor_url sample_descriptor)])%list.
Proof.
  apply (polling_retries_after_failed_fetch no_repr env_fetch_down (VStr "job-1")
           [] 2 sample_fields sample_descriptor).
  - repeat split; reflexivity.
  - reflexivity.
  - reflexivity.
  - exact I.
Defined.

Lemma polling_returns_fetched_image_witness :
  exists result,
    _poll_generation_status no_repr env_success (VStr "job-1") [] =
    (Ok (VDict result),
     ([] ++ polls (status_url no_repr (VStr "job-1")) 1 ++
         [EGet (descriptor_url sample_descriptor)])%list) /\
    dict_lookup "image_bytes" result =
    Some (VBytes (content (image_reply sample_bytes))) /\
    forall key, key <> "image_bytes" ->
      dict_lookup key result = dict_lookup key sample_fields.
Proof.
  apply (polling_returns_fetched_image no_repr env_success (VStr "job-1") [] 0
           sample_fields sample_descriptor (image_reply sample_bytes)).
  - lia.
  - intros i Hi. lia.
  - repeat split; reflexivity.
  - reflexivity.
  - reflexivity.
  - reflexivity.
  - reflexivity.
Defined.

Lemma sample_reaches_fetch (get : option response) (store_ok : bool)
      (image_response : response) :
  get = Some image_response ->
  is_error_status image_response = false ->
  reaches_fetch no_repr
    (make_env (fun _ => Some (job_reply (VStr "job-1"))) (fetch_get get) store_ok)
    [("prompt", VStr "a red barn"); ("width", VInt 5000)]
    (VStr "a red barn") (VStr "job-1") 5000 1192 [] 0
    sample_fields sample_descriptor image_response.
Proof.
  intros -> Hok. unfold reaches_fetch.
  split; [reflexivity |]. split; [reflexivity |]. split; [reflexivity |].
  split; [eexists _, _; repeat split; reflexivity |].
  split; [lia |].
  split; [intros i Hi; lia |].
  split; [repeat split; reflexivity |].
  split; [reflexivity |]. split; [reflexivity |].
  split; [reflexivity | exact Hok].
Qed.

Lemma endpoint_full_success_witness :
  generate_image_endpoint no_repr env_success sample_request [] =
  (Ok success_reply, success_history).
Proof.
  apply (endpoint_full_success no_repr env_success
           [("prompt", VStr "a red barn"); ("width", VInt 5000)]
           (VStr "a red barn") (VStr "job-1") 5000 1192 [] 0
           sample_fields sample_descriptor (image_reply sample_bytes)).
  - apply (sample_reaches_fetch (Some (image_reply sample_bytes)) true);
      reflexivity.
  - discriminate.
  - reflexivity.
  - reflexivity.
  - discriminate.
Defined.

Lemma endpoint_empty_image_witness :
  generate_image_endpoint no_repr env_empty_image sample_request [] =
  (Ok (error_reply "Image upload failed" 500),
   fetched_history no_repr (VStr "a red barn") (VStr "job-1") 5000 1192 [] 0
                   (descriptor_url sample_descriptor)).
Proof.
  apply (endpoint_empty_image no_repr env_empty_image
           [("prompt", VStr "a red barn"); ("width", VInt 5000)]
           (VStr "a red barn") (VStr "job-1") 5000 1192 [] 0
           sample_fields sample_descriptor (image_reply [])).
  - apply (sample_reaches_fetch (Some (image_reply [])) true); reflexivity.
  - reflexivity.
Defined.

Lemma object_names_collide_iff_witness :
  "images/" ++ strftime sample_datetime ++ "_" ++
    substring 0 8 (uuid_hex 0x0123456789abcdef0123456789abcdef) ++ ".jpg" =
  "images/" ++ strftime sample_datetime ++ "_" ++
    substring 0 8 (uuid_hex 0x01234567ffffffffffffffffffffffff) ++ ".jpg" <->
  strftime sample_datetime = strftime sample_datetime /\
  ((0x0123456789abcdef0123456789abcdef mod 2 ^ 128) / 2 ^ 96 =
   (0x01234567ffffffffffffffffffffffff mod 2 ^ 128) / 2 ^ 96)%N.
Proof.
  apply (object_names_collide_iff "images/" sample_datetime sample_datetime
           0x0123456789abcdef0123456789abcdef
           0x01234567ffffffffffffffffffffffff); reflexivity.
Defined.

(** C1, as first stated, fails: a status query that never reports COMPLETE
    may still end the polling at once.  On the provider of
    [env_null_status], whose every answer has a null [generations_by_pk],
    reading the status raises AttributeError after one status query, and the
    view answers 500 "Unexpected server error". *)
Lemma polling_breaks_on_null_document :
  (forall h url,
      http_get env_null_status h url =
      Some (ok_response (VDict [("generations_by_pk", VNone)]))) /\
  _poll_generation_status no_repr env_null_status (VStr "job-1") [] =
  (Raise AttributeError,
   [ESleep 10;
    EGet (VStr "https://cloud.leonardo.ai/api/rest/v1/generations/job-1")]) /\
  generate_image_endpoint no_repr env_null_status sample_request [] =
  (Ok (VDict [("error", VStr "Unexpected server error")], 500%Z),
   [EPost GENERATIONS_URL
          (submission_payload no_repr (VStr "a red barn") (VInt 900) (VInt 1192));
    ESleep 10;
    EGet (VStr "https://cloud.leonardo.ai/api/rest/v1/generations/job-1")]).
Proof.
  split; [intros h url; reflexivity |].
  split; vm_compute; reflexivity.
Qed.

(** C5, as first stated, fails: a request with no body to decode, and a
    body that is a number, have no key [prompt] and are answered 500
    "Unexpected server error", not 400. *)
Lemma request_without_prompt_answered_500 :
  endpoint_on_request no_repr env_success UnreadableRequest [] =
  (Ok (VDict [("error", VStr "Unexpected server error")], 500%Z), []) /\
  endpoint_on_request no_repr env_success (JsonRequest (VInt 7)) [] =
  (Ok (VDict [("error", VStr "Unexpected server error")], 500%Z), []).
Proof. split; reflexivity. Qed.

(** C8, as first stated, fails: an answer to the submission without a job
    identifier may make [generate_image] raise.  On the provider of
    [env_null_job], whose answer has a null [sdGenerationJob], it raises
    AttributeError. *)
Lemma generate_image_raises_on_null_job :
  http_post env_null_job [] GENERATIONS_URL
            (submission_payload no_repr (VStr "a red barn") (VInt 900) (VInt 1192)) =
  Some (ok_response (VDict [("sdGenerationJob", VNone)])) /\
  generate_image no_repr env_null_job (VStr "a red barn") (VInt 900) (VInt 1192) [] =
  (Raise AttributeError,
   [EPost GENERATIONS_URL
          (submission_payload no_repr (VStr "a red barn") (VInt 900) (VInt 1192))]).
Proof. split; [reflexivity | vm_compute; reflexivity]. Qed.
